(** * The [module] schematic of the Angular CLI

    A shallow embedding of
    [packages/schematics/angular/module/index.ts]: the rule factory that
    registers a freshly generated NgModule in an existing module
    descriptor, either by a direct import or by a lazy route entry.

    Strings are [string], the host tree is a finite map from paths to file
    contents, and the rules run in a small state-and-exception monad whose
    state holds the shared options object, the host tree and a log of the
    host operations performed. *)

From Stdlib Require Import Ascii String.
From stdpp Require Import base option strings list gmap.

(** ** JavaScript values used by the schematic *)

(** A property of type [string | undefined]. *)
Abbreviation jsstring := (option string).

(** Truthiness of a [string | undefined]: [undefined] and the empty string
    are falsy, every other string is truthy. *)
Definition truthy (v : jsstring) : bool :=
  match v with
  | None => false
  | Some s => negb (String.eqb s "")
  end.

(** What a template literal interpolates for a [string | undefined]. *)
Definition interpolate (v : jsstring) : string :=
  match v with
  | None => "undefined"
  | Some s => s
  end.

(** [s.split('.')[0]]: the text before the first dot, or all of [s] when it
    has none. *)
Fixpoint split_dot_head (s : string) : string :=
  match s with
  | EmptyString => EmptyString
  | String c rest =>
      if Ascii.eqb c "."%char then EmptyString
      else String c (split_dot_head rest)
  end.

(** ** The schema *)

Inductive RoutingScope := Child | Root.

(** [Schema as ModuleOptions]. *)
Record ModuleOptions := {
  name : string;
  path : jsstring;
  project : jsstring;
  module : jsstring;
  route : jsstring;
  routingScope : RoutingScope;
  flat : bool;
  routing : bool;
  lintFix : bool;
}.

Definition set_name (v : string) (o : ModuleOptions) : ModuleOptions :=
  {| name := v; path := path o; project := project o; module := module o;
     route := route o; routingScope := routingScope o; flat := flat o;
     routing := routing o; lintFix := lintFix o |}.

Definition set_path (v : jsstring) (o : ModuleOptions) : ModuleOptions :=
  {| name := name o; path := v; project := project o; module := module o;
     route := route o; routingScope := routingScope o; flat := flat o;
     routing := routing o; lintFix := lintFix o |}.

Definition set_module (v : jsstring) (o : ModuleOptions) : ModuleOptions :=
  {| name := name o; path := path o; project := project o; module := v;
     route := route o; routingScope := routingScope o; flat := flat o;
     routing := routing o; lintFix := lintFix o |}.

Definition set_routingScope (v : RoutingScope) (o : ModuleOptions)
  : ModuleOptions :=
  {| name := name o; path := path o; project := project o; module := module o;
     route := route o; routingScope := v; flat := flat o;
     routing := routing o; lintFix := lintFix o |}.

(** ** The host tree and its update recorder *)

Abbreviation Path := string.

(** The host [Tree] as the schematic sees it: the files it can [read]. *)
Abbreviation Tree := (gmap string string).

(** [InsertChange]: the text [toAdd] goes in at offset [pos]. *)
Record InsertChange := { pos : nat; toAdd : string }.

(** The [Change]s of [utility/change]; only [InsertChange]s are recorded. *)
Inductive Change :=
| Insert (c : InsertChange)
| Noop
| Remove (at_pos : nat) (toRemove : string)
| Replace (at_pos : nat) (oldText newText : string).

(** An [UpdateRecorder]: the file it was opened on, that file's contents when
    it was opened, and the inserts registered so far, oldest first. *)
Record UpdateRecorder := {
  rec_path : Path;
  rec_original : string;
  rec_inserts : list InsertChange;
}.

(** Modelled from the spec: the patch applier's merge (the devkit's
    [UpdateBuffer], not part of this package). Offsets refer to the original
    text; of two inserts at one offset the later-registered one lands to the
    left of the earlier. *)
Definition inserted_at (ins : list InsertChange) (i : nat) : string :=
  foldl (fun acc c => if Nat.eqb (pos c) i then toAdd c +:+ acc else acc)
        "" ins.

Fixpoint splice (ins : list InsertChange) (i : nat) (s : string) : string :=
  match s with
  | EmptyString => inserted_at ins i
  | String c rest => inserted_at ins i +:+ String c (splice ins (S i) rest)
  end.

Definition merged_text (r : UpdateRecorder) : string :=
  splice (rec_inserts r) 0 (rec_original r).

(** ** Exceptions, outcomes and the rule monad *)

Inductive exn :=
| SchematicsException (msg : string)
| Error (msg : string)
| TypeError (msg : string).

Inductive outcome (A : Type) :=
| Ok (a : A)
| Throw (e : exn).
Arguments Ok {A} a.
Arguments Throw {A} e.

(** What the core does to the host and which analysers it calls, in order. *)
Inductive Event :=
| EvRead (p : Path)
| EvAddImportToModule (p : Path) (symbolName importPath : string)
| EvAddRouteDeclarationToModule (p : Path) (routeLiteral : string)
| EvBeginUpdate (p : Path)
| EvInsertLeft (p : Path) (at_pos : nat) (text : string)
| EvCommitUpdate (p : Path).

(** The state a rule runs in: the one options object every closure shares,
    the host tree, and the log of events so far. *)
Record State := {
  st_options : ModuleOptions;
  st_host : Tree;
  st_log : list Event;
}.

Definition M (A : Type) : Type := State -> outcome A * State.

Definition ret {A} (a : A) : M A := fun s => (Ok a, s).

Definition throw {A} (e : exn) : M A := fun s => (Throw e, s).

Definition bind {A B} (m : M A) (k : A -> M B) : M B :=
  fun s =>
    match m s with
    | (Ok a, s') => k a s'
    | (Throw e, s') => (Throw e, s')
    end.

Notation "'let*' x ':=' m 'in' k" := (bind m (fun x => k))
  (at level 10, x name, m at level 100, k at level 200).
Notation "m '>>' k" := (bind m (fun _ => k))
  (at level 60, right associativity).

Definition lift {A} (r : outcome A) : M A := fun s => (r, s).

Definition get_options : M ModuleOptions := fun s => (Ok (st_options s), s).

Definition get_host : M Tree := fun s => (Ok (st_host s), s).

Definition modify_options (f : ModuleOptions -> ModuleOptions) : M unit :=
  fun s => (Ok tt, {| st_options := f (st_options s);
                      st_host := st_host s; st_log := st_log s |}).

(** The state with more events logged, and with another host tree. *)
Definition logged (evs : list Event) (s : State) : State :=
  {| st_options := st_options s; st_host := st_host s;
     st_log := st_log s ++ evs |}.

Definition with_host (h : Tree) (s : State) : State :=
  {| st_options := st_options s; st_host := h; st_log := st_log s |}.

Definition emit (e : Event) : M unit := fun s => (Ok tt, logged [e] s).

Definition put_host (h : Tree) : M unit := fun s => (Ok tt, with_host h s).

(** The event of one [insertLeft]. *)
Definition insert_event (p : Path) (c : InsertChange) : Event :=
  EvInsertLeft p (pos c) (toAdd c).

(** Modelled from the spec: the file store's [read(path) -> bytes | null]
    (the devkit's [host.read]): the contents, or [null] for a missing
    file. *)
Definition host_read (p : Path) : M (option string) :=
  emit (EvRead p) >> let* h := get_host in ret (h !! p).

(** Modelled from the spec: the patch applier's [beginUpdate(path) -> handle]
    (the devkit's [host.beginUpdate]); the tree refuses a path it does not
    hold. *)
Definition beginUpdate (p : Path) : M UpdateRecorder :=
  let* h := get_host in
  match h !! p with
  | None => throw (SchematicsException ("Path " +:+ p +:+ " does not exist."))
  | Some original =>
      emit (EvBeginUpdate p) >>
      ret {| rec_path := p; rec_original := original; rec_inserts := [] |}
  end.

(** Modelled from the spec: the patch applier's
    [insertLeft(handle, offset, text)] (the devkit's
    [recorder.insertLeft]). *)
Definition insertLeft (r : UpdateRecorder) (c : InsertChange)
  : M UpdateRecorder :=
  emit (insert_event (rec_path r) c) >>
  ret {| rec_path := rec_path r; rec_original := rec_original r;
         rec_inserts := rec_inserts r ++ [c] |}.

(** Modelled from the spec: the patch applier's [commitUpdate(handle)] (the
    devkit's [host.commitUpdate]): the merged text replaces the file. *)
Definition commitUpdate (r : UpdateRecorder) : M unit :=
  emit (EvCommitUpdate (rec_path r)) >>
  let* h := get_host in
  put_host (<[rec_path r := merged_text r]> h).

(** A rule of another package, run on the host: it may fail, and what it
    does to the tree is its own business. *)
Definition external (f : Tree -> outcome Tree) : M unit :=
  let* h := get_host in
  let* h' := lift (f h) in
  put_host h'.

Definition noop : M unit := ret tt.

(** The two messages of the route step. *)
Definition module_required : exn :=
  Error "Module option required when creating a lazy loaded routing module.".

Definition route_host_not_found : exn :=
  Error "Couldn't find the module nor its routing module.".

(** Modelled from the spec: the devkit's [chain(rules)] runs the rules in
    order, and the first that throws aborts the rest. *)
Fixpoint chain (rules : list (M unit)) : M unit :=
  match rules with
  | [] => ret tt
  | r :: rest => r >> chain rest
  end.

(** ** Collaborators

    Everything [index.ts] imports from other files: name casing, path
    helpers, the module finder, the project reader, the two syntax-tree
    analysers and the rules of other schematics. The schematic is
    parametric in them. The finder and the two workspace readers,
    [createDefaultPath] and [getProject], can throw; so can the route
    analyser and the rules of other schematics. *)

(** [parseName]'s [Location]. *)
Record Location := { loc_name : string; loc_path : Path }.

(** What [applyTemplates] and the template filter are given. *)
Record TemplateContext := {
  keep_routing_template : bool;
  lazyRoute : bool;
  routeDeclarationInlined : bool;
  template_options : ModuleOptions;
  move_to : Path;
}.

Class Collaborators := {
  WorkspaceProject : Type;
  (* strings *)
  classify : string -> string;
  dasherize : string -> string;
  (* @angular-devkit/core *)
  normalize : string -> Path;
  (* utility/find-module *)
  buildRelativePath : Path -> Path -> string;
  findModuleFromOptions : Tree -> ModuleOptions -> outcome jsstring;
  (* utility/parse-name, utility/workspace, utility/project *)
  parseName : string -> string -> Location;
  createDefaultPath : Tree -> jsstring -> outcome string;
  getProject : Tree -> jsstring -> outcome WorkspaceProject;
  isProjectUsingIvy : Tree -> WorkspaceProject -> bool;
  (* utility/ast-utils, on the source text of the file *)
  addImportToModule : string -> Path -> string -> string -> list Change;
  addRouteDeclarationToModule : string -> Path -> string -> outcome InsertChange;
  (* rules of other schematics *)
  schematic_component : ModuleOptions -> Tree -> outcome Tree;
  mergeWith_templateSource : TemplateContext -> Tree -> outcome Tree;
  applyLintFix : jsstring -> Tree -> outcome Tree;
}.

(** A [string | undefined] used where the code has established a string. *)
Definition as_string (v : jsstring) : string := default "" v.

Section Schematic.
Context `{Collaborators}.

(** ** [addDeclarationToNgModule] *)

(** The argument of [normalize] on lines 49-54. *)
Definition importModulePath_text (options : ModuleOptions) : string :=
  "/" +:+ interpolate (path options) +:+ "/"
  +:+ (if flat options then "" else dasherize (name options) +:+ "/")
  +:+ dasherize (name options)
  +:+ ".module".

Definition importModulePath (options : ModuleOptions) : Path :=
  normalize (importModulePath_text options).

(** The changes that are [instanceof InsertChange]. *)
Fixpoint insert_changes (changes : list Change) : list InsertChange :=
  match changes with
  | [] => []
  | Insert c :: rest => c :: insert_changes rest
  | _ :: rest => insert_changes rest
  end.

(** The loop of lines 62-66. *)
Fixpoint record_inserts (recorder : UpdateRecorder) (changes : list Change)
  : M UpdateRecorder :=
  match changes with
  | [] => ret recorder
  | Insert c :: rest =>
      let* recorder' := insertLeft recorder c in
      record_inserts recorder' rest
  | _ :: rest => record_inserts recorder rest
  end.

Definition addDeclarationToNgModule : M unit :=
  let* options := get_options in
  if negb (truthy (module options)) then ret tt
  else
    let modulePath := as_string (module options) in
    let* text := host_read modulePath in
    match text with
    | None =>
        throw (SchematicsException
                 ("File " +:+ modulePath +:+ " does not exist."))
    | Some sourceText =>
        let relativePath :=
          buildRelativePath modulePath (importModulePath options) in
        let symbolName := classify (name options +:+ "Module") in
        emit (EvAddImportToModule modulePath symbolName relativePath) >>
        let changes :=
          addImportToModule sourceText modulePath symbolName relativePath in
        let* recorder := beginUpdate modulePath in
        let* recorder' := record_inserts recorder changes in
        commitUpdate recorder'
    end.

(** ** [buildRoute] *)

Definition buildRoute (options : ModuleOptions) (ivyEnabled : bool) : string :=
  let modulePath := "./" +:+ name options +:+ "/" +:+ name options +:+ ".module" in
  let moduleName := classify (name options) +:+ "Module" in
  let loadChildren :=
    if ivyEnabled
    then "() => import('" +:+ modulePath +:+ "').then(m => m." +:+ moduleName +:+ ")"
    else "'" +:+ modulePath +:+ "#" +:+ moduleName +:+ "'" in
  "{ path: '" +:+ interpolate (route options) +:+ "', loadChildren: "
  +:+ loadChildren +:+ " }".

(** ** [addRouteDeclarationToNgModule] *)

(** Lines 86-91: the file the route entry goes into. *)
Definition route_target (options : ModuleOptions) (routingModulePath : jsstring)
  : Path :=
  if truthy routingModulePath then as_string routingModulePath
  else as_string (module options).

Definition addRouteDeclarationToNgModule
    (project : WorkspaceProject) (routingModulePath : jsstring) : M unit :=
  let* options := get_options in
  if negb (truthy (route options)) then ret tt
  else if truthy (route options) && negb (truthy (module options)) then
    throw module_required
  else
    let path := route_target options routingModulePath in
    let* text := host_read path in
    match text with
    | None => throw route_host_not_found
    | Some sourceText =>
        let* host := get_host in
        let ivyEnabled := isProjectUsingIvy host project in
        let routeLiteral := buildRoute options ivyEnabled in
        emit (EvAddRouteDeclarationToModule path routeLiteral) >>
        let* addDeclaration :=
          lift (addRouteDeclarationToModule sourceText path routeLiteral) in
        let* recorder := beginUpdate path in
        let* recorder' := insertLeft recorder addDeclaration in
        commitUpdate recorder'
    end.

(** ** [getRoutingModulePath] *)

(** Line 117. *)
Definition routingModuleName (modulePath : string) : string :=
  split_dot_head modulePath +:+ "-routing".

(** [{ module: routingModuleName, ...rest }]. *)
Definition routing_lookup_options (options : ModuleOptions) : ModuleOptions :=
  set_module (Some (routingModuleName (as_string (module options)))) options.

(** [split] on an [undefined] module is a [TypeError], outside the [try];
    whatever the finder throws inside it is dropped. *)
Definition getRoutingModulePath (host : Tree) (options : ModuleOptions)
  : outcome jsstring :=
  match module options with
  | None => Throw (TypeError "Cannot read property 'split' of undefined")
  | Some _ =>
      match findModuleFromOptions host (routing_lookup_options options) with
      | Ok p => Ok p
      | Throw _ => Ok None
      end
  end.

(** ** The rule factory (the default export) *)

(** Line 156, as the boolean it is used as. *)
Definition isLazyLoadedModuleGen (options : ModuleOptions) : bool :=
  truthy (route options) && truthy (module options).

(** Lines 143-160: the options are brought into shape, in place. *)
Definition prepare : M jsstring :=
  let* host := get_host in
  let* options := get_options in
  (match path options with
   | None =>
       let* defaultPath := lift (createDefaultPath host (project options)) in
       modify_options (set_path (Some defaultPath))
   | Some _ => ret tt
   end) >>
  let* options := get_options in
  (if truthy (module options) then
     let* found := lift (findModuleFromOptions host options) in
     modify_options (set_module found)
   else ret tt) >>
  let* options := get_options in
  let parsedPath := parseName (as_string (path options)) (name options) in
  modify_options (set_name (loc_name parsedPath)) >>
  modify_options (set_path (Some (loc_path parsedPath))) >>
  let* options := get_options in
  if isLazyLoadedModuleGen options then
    modify_options (set_routingScope Child) >>
    let* options := get_options in
    lift (getRoutingModulePath host options)
  else ret None.

(** Lines 163-175. *)
Definition templateContext (options : ModuleOptions)
    (routingModulePath : jsstring) : TemplateContext :=
  {| keep_routing_template :=
       routing options
       || (isLazyLoadedModuleGen options && truthy routingModulePath);
     lazyRoute := isLazyLoadedModuleGen options;
     routeDeclarationInlined := negb (truthy routingModulePath);
     template_options := options;
     move_to := as_string (path options) |}.

(** Lines 177-188: the rules handed to [chain]. *)
Definition rules (options : ModuleOptions) (project : WorkspaceProject)
    (routingModulePath : jsstring) : list (M unit) :=
  [ if negb (isLazyLoadedModuleGen options)
    then addDeclarationToNgModule else noop;
    addRouteDeclarationToNgModule project routingModulePath;
    if isLazyLoadedModuleGen options
    then external (schematic_component options) else noop;
    external (mergeWith_templateSource
                (templateContext options routingModulePath));
    if lintFix options then external (applyLintFix (path options)) else noop ].

(** The default export, run on a host: the options are shaped, the project
    is read from the workspace (line 162), and then the chain runs on the
    same host with the same options object. *)
Definition module_schematic : M unit :=
  let* routingModulePath := prepare in
  let* options := get_options in
  let* host := get_host in
  let* project := lift (getProject host (project options)) in
  chain (rules options project routingModulePath).

End Schematic.

(** ** The routing sibling as the specification derives it *)

Fixpoint has_slash (s : string) : bool :=
  match s with
  | EmptyString => false
  | String c rest => Ascii.eqb c "/"%char || has_slash rest
  end.

Fixpoint has_dot (s : string) : bool :=
  match s with
  | EmptyString => false
  | String c rest => Ascii.eqb c "."%char || has_dot rest
  end.

(** The directory part of a path, with its final slash. *)
Fixpoint directory_part (s : string) : string :=
  match s with
  | EmptyString => EmptyString
  | String c rest =>
      if has_slash rest then String c (directory_part rest)
      else if Ascii.eqb c "/"%char then String c EmptyString
      else EmptyString
  end.

(** The base name of a path: what follows its last slash. *)
Fixpoint base_name (s : string) : string :=
  match s with
  | EmptyString => EmptyString
  | String c rest =>
      if has_slash rest then base_name rest
      else if Ascii.eqb c "/"%char then rest
      else s
  end.

(** The candidate identifier in the specification's words: the module path
    with everything from the first dot of its base name replaced by
    "-routing". *)
Definition sibling_identifier (modulePath : Path) : string :=
  directory_part modulePath +:+ split_dot_head (base_name modulePath)
  +:+ "-routing".

(** ** A concrete set of collaborators

    Small stand-ins for the imported helpers, enough to run the schematic
    on example trees. *)

Definition upper_first (s : string) : string :=
  match s with
  | EmptyString => EmptyString
  | String c rest =>
      let n := nat_of_ascii c in
      if (97 <=? n)%nat && (n <=? 122)%nat
      then String (ascii_of_nat (n - 32)) rest
      else s
  end.

Fixpoint index_of (c : ascii) (s : string) : option nat :=
  match s with
  | EmptyString => None
  | String d rest =>
      if Ascii.eqb c d then Some 0 else S <$> index_of c rest
  end.

(** Two slashes in a row become one. *)
Fixpoint squeeze_slashes (s : string) : string :=
  match s with
  | EmptyString => EmptyString
  | String c rest =>
      match rest with
      | String d _ =>
          if Ascii.eqb c "/"%char && Ascii.eqb d "/"%char
          then squeeze_slashes rest
          else String c (squeeze_slashes rest)
      | EmptyString => s
      end
  end.

Fixpoint strip_prefix (prefix s : string) : option string :=
  match prefix, s with
  | EmptyString, _ => Some s
  | String c prefix', String d s' =>
      if Ascii.eqb c d then strip_prefix prefix' s' else None
  | String _ _, EmptyString => None
  end.

(** Looks in the directory [path] for a file named as the base name of
    [module], as it is or with [.ts] or [.module.ts] added. *)
Definition demo_findModule (host : Tree) (options : ModuleOptions)
  : outcome jsstring :=
  let m := squeeze_slashes
             ("/" +:+ interpolate (path options) +:+ "/"
              +:+ base_name (as_string (module options))) in
  if decide (is_Some (host !! m)) then Ok (Some m)
  else if decide (is_Some (host !! (m +:+ ".ts"))) then Ok (Some (m +:+ ".ts"))
  else if decide (is_Some (host !! (m +:+ ".module.ts")))
       then Ok (Some (m +:+ ".module.ts"))
  else Throw (Error ("Specified module '" +:+ as_string (module options)
                     +:+ "' does not exist.")).

(** The path [to] as seen from the directory of [from], when it lies below
    it. *)
Definition demo_relativePath (from to : Path) : string :=
  match strip_prefix (directory_part from) to with
  | Some rest => "./" +:+ rest
  | None => to
  end.

(** Puts the entry before the first closing bracket, and has its own
    complaint when there is none. *)
Definition demo_addRoute (sourceText : string) (fileToAdd : Path)
    (routeLiteral : string) : outcome InsertChange :=
  match index_of "]"%char sourceText with
  | Some i => Ok {| pos := i; toAdd := routeLiteral |}
  | None =>
      Throw (Error ("Couldn't find a route declaration in " +:+ fileToAdd +:+ "."))
  end.

Definition demo_addImport (sourceText : string) (modulePath : Path)
    (symbolName importPath : string) : list Change :=
  [ Insert {| pos := 0;
              toAdd := "import { " +:+ symbolName +:+ " } from '"
                       +:+ importPath +:+ "';" |} ].

(** The sample workspace readers need the workspace file, as the real ones
    do. *)
Definition has_workspace (host : Tree) : bool :=
  bool_decide (is_Some (host !! "/angular.json")).

Definition workspace_missing : exn :=
  SchematicsException "Could not find (undefined)".

Definition demo_defaultPath (host : Tree) (projectName : jsstring)
  : outcome string :=
  if has_workspace host then Ok "/src/app" else Throw workspace_missing.

Definition demo_getProject (host : Tree) (projectName : jsstring)
  : outcome bool :=
  if has_workspace host then Ok (bool_decide (projectName = Some "ivy"))
  else Throw workspace_missing.

#[local] Instance demo : Collaborators := {|
  WorkspaceProject := bool;
  classify := upper_first;
  dasherize := fun s => s;
  normalize := squeeze_slashes;
  buildRelativePath := demo_relativePath;
  findModuleFromOptions := demo_findModule;
  parseName := fun p n => {| loc_name := n; loc_path := p |};
  createDefaultPath := demo_defaultPath;
  getProject := demo_getProject;
  isProjectUsingIvy := fun _ enabled => enabled;
  addImportToModule := demo_addImport;
  addRouteDeclarationToModule := demo_addRoute;
  schematic_component := fun _ h => Ok h;
  mergeWith_templateSource := fun _ h => Ok h;
  applyLintFix := fun _ h => Ok h;
|}.

Definition widget_options : ModuleOptions :=
  {| name := "widget"; path := Some "/src/app"; project := Some "app";
     module := Some "app.module.ts"; route := Some "widgets";
     routingScope := Root; flat := false; routing := false;
     lintFix := false |}.

(** The same request without a route: a plain import. *)
Definition import_options : ModuleOptions :=
  {| name := "widget"; path := Some "/src/app"; project := Some "app";
     module := Some "app.module.ts"; route := None;
     routingScope := Root; flat := false; routing := false;
     lintFix := false |}.

Definition start (options : ModuleOptions) (host : Tree) : State :=
  {| st_options := options; st_host := host; st_log := [] |}.

(** A module descriptor with imports but no route table. *)
Definition plain_tree : Tree :=
  {[ "/angular.json" := "{}";
     "/src/app/app.module.ts"
     := "@NgModule({ imports: [] }) export class AppModule {}" ]}.

(** The same descriptor in a tree with no workspace file. *)
Definition stray_tree : Tree :=
  {[ "/src/app/app.module.ts"
     := "@NgModule({ imports: [] }) export class AppModule {}" ]}.

(** A module descriptor with no array literal at all. *)
Definition bare_tree : Tree :=
  {[ "/angular.json" := "{}";
     "/src/app/app.module.ts" := "export class AppModule {}" ]}.

(** The same descriptor with a routing sibling next to it. *)
Definition routed_tree : Tree :=
  <[ "/src/app/app-routing.module.ts" := "const routes: Routes = [];" ]>
    plain_tree.

(** A project kept in a directory with a dot in its name, with a routing
    sibling next to the module descriptor. *)
Definition dotted_tree : Tree :=
  {[ "/angular.json" := "{}";
     "/projects/my.app/src/app/app.module.ts"
     := "@NgModule({ imports: [] }) export class AppModule {}";
     "/projects/my.app/src/app/app-routing.module.ts"
     := "const routes: Routes = [];" ]}.

Definition dotted_options : ModuleOptions :=
  {| name := "widget"; path := Some "/projects/my.app/src/app";
     project := Some "app"; module := Some "app.module.ts";
     route := Some "widgets"; routingScope := Root; flat := false;
     routing := false; lintFix := false |}.

(** ** Vocabulary for the properties *)

Definition is_import_event (e : Event) : bool :=
  match e with
  | EvAddImportToModule _ _ _ => true
  | _ => false
  end.

Definition is_route_event (e : Event) : bool :=
  match e with
  | EvAddRouteDeclarationToModule _ _ => true
  | _ => false
  end.

(** [runs Q P m]: started with options satisfying [Q], the computation [m]
    leaves the options object as it is and logs only events satisfying
    [P], whether it returns or throws. *)
Definition runs (Q : ModuleOptions -> Prop) (P : Event -> Prop) {A : Type}
    (m : M A) : Prop :=
  forall s, Q (st_options s) ->
    st_options (snd (m s)) = st_options s
    /\ exists evs, st_log (snd (m s)) = st_log s ++ evs /\ Forall P evs.

Abbreviation any_options := (fun _ : ModuleOptions => True).
Abbreviation not_import := (fun e : Event => is_import_event e = false).
Abbreviation not_route := (fun e : Event => is_route_event e = false).

(** The value a run computes for [isLazyLoadedModuleGen]; [false] when the
    run fails before it gets there. *)
Definition lazy_run `{Collaborators} (s : State) : bool :=
  match prepare s with
  | (Ok _, s1) => isLazyLoadedModuleGen (st_options s1)
  | (Throw _, _) => false
  end.

(** The state with another options object. *)
Definition with_options (o : ModuleOptions) (s : State) : State :=
  {| st_options := o; st_host := st_host s; st_log := st_log s |}.

(** Lines 143-145 as a function of the options: [path] gets the project's
    default when it is [undefined], unless reading that default throws. *)
Definition with_default_path `{Collaborators} (host : Tree)
    (o : ModuleOptions) : outcome ModuleOptions :=
  match path o with
  | None =>
      match createDefaultPath host (project o) with
      | Ok defaultPath => Ok (set_path (Some defaultPath) o)
      | Throw e => Throw e
      end
  | Some _ => Ok o
  end.

(** Lines 151-153 as a function of the options: [name] and [path] become
    those of [parseName]. *)
Definition with_parsed_name `{Collaborators} (o : ModuleOptions)
  : ModuleOptions :=
  let parsedPath := parseName (as_string (path o)) (name o) in
  set_path (Some (loc_path parsedPath)) (set_name (loc_name parsedPath) o).

(** The file an event is about. *)
Definition event_path (e : Event) : Path :=
  match e with
  | EvRead p => p
  | EvAddImportToModule p _ _ => p
  | EvAddRouteDeclarationToModule p _ => p
  | EvBeginUpdate p => p
  | EvInsertLeft p _ _ => p
  | EvCommitUpdate p => p
  end.

(** The sample collaborators with an import analyser that finds the symbol
    imported already and asks for no insert. *)
Definition demo_imported : Collaborators := {|
  WorkspaceProject := bool;
  classify := upper_first;
  dasherize := fun s => s;
  normalize := squeeze_slashes;
  buildRelativePath := demo_relativePath;
  findModuleFromOptions := demo_findModule;
  parseName := fun p n => {| loc_name := n; loc_path := p |};
  createDefaultPath := demo_defaultPath;
  getProject := demo_getProject;
  isProjectUsingIvy := fun _ enabled => enabled;
  addImportToModule := fun _ _ _ _ => [Noop];
  addRouteDeclarationToModule := demo_addRoute;
  schematic_component := fun _ h => Ok h;
  mergeWith_templateSource := fun _ h => Ok h;
  applyLintFix := fun _ h => Ok h;
|}.

(** * Properties *)

(** ** Strings *)

Lemma append_nil_l (b : string) : "" +:+ b = b.
Proof. reflexivity. Qed.

Lemma append_cons (x : ascii) (a b : string) :
  String x a +:+ b = String x (a +:+ b).
Proof. reflexivity. Qed.

Lemma append_assoc (a b c : string) : (a +:+ b) +:+ c = a +:+ (b +:+ c).
Proof.
  induction a as [|x a IH]; [reflexivity |].
  rewrite !append_cons. by rewrite IH.
Qed.

Lemma append_inj_l (a b c : string) : a +:+ b = a +:+ c -> b = c.
Proof. apply String.app_inj. Qed.

Lemma append_length (a b : string) :
  String.length (a +:+ b) = String.length a + String.length b.
Proof.
  induction a as [|x a IH]; [reflexivity |].
  rewrite append_cons. simpl. by rewrite IH.
Qed.

Lemma append_inj_r (a b c : string) : a +:+ c = b +:+ c -> a = b.
Proof.
  revert b. induction a as [|x a IH]; intros [|y b] E.
  - reflexivity.
  - apply (f_equal String.length) in E. rewrite append_nil_l, append_cons in E.
    simpl in E. rewrite append_length in E. lia.
  - apply (f_equal String.length) in E. rewrite append_nil_l, append_cons in E.
    simpl in E. rewrite append_length in E. lia.
  - rewrite !append_cons in E. injection E as -> E. f_equal. by apply IH.
Qed.

Lemma truthy_Some (v : jsstring) :
  truthy v = true -> exists s, v = Some s /\ s <> "".
Proof.
  destruct v as [s|]; simpl; [| discriminate].
  intros E. exists s. split; [reflexivity |].
  intros ->. discriminate.
Qed.

(** ** The route entry *)

(** C1. For options whose [route] is set, [buildRoute] yields one object
    literal [{ path: '<route>', loadChildren: <loader> }]: the loader is the
    dynamic import [() => import('<modulePath>').then(m => m.<ModuleName>)]
    when the Ivy flag is on and the string ['<modulePath>#<ModuleName>'] when
    it is off, where the module path is [./<name>/<name>.module] and the
    module name is the classified name followed by [Module]. The two texts
    have the same prefix and the same suffix around the loader, and they do
    differ. *)
Theorem buildRoute_shape `{Collaborators} (options : ModuleOptions)
    (r : string) :
  route options = Some r ->
  let n := name options in
  let modulePath := "./" +:+ n +:+ "/" +:+ n +:+ ".module" in
  let moduleName := classify n +:+ "Module" in
  let before := "{ path: '" +:+ r +:+ "', loadChildren: " in
  let after := " }" in
  buildRoute options true
  = before
    +:+ ("() => import('" +:+ modulePath +:+ "').then(m => m."
         +:+ moduleName +:+ ")")
    +:+ after
  /\ buildRoute options false
     = before +:+ ("'" +:+ modulePath +:+ "#" +:+ moduleName +:+ "'")
       +:+ after
  /\ buildRoute options true <> buildRoute options false.
Proof.
  intros Hr n modulePath moduleName before after.
  assert (Et : buildRoute options true
               = before
                 +:+ ("() => import('" +:+ modulePath +:+ "').then(m => m."
                      +:+ moduleName +:+ ")")
                 +:+ after).
  { unfold buildRoute, before. rewrite Hr. simpl interpolate.
    fold n. fold modulePath. fold moduleName.
    by rewrite !append_assoc. }
  assert (Ef : buildRoute options false
               = before +:+ ("'" +:+ modulePath +:+ "#" +:+ moduleName +:+ "'")
                 +:+ after).
  { unfold buildRoute, before. rewrite Hr. simpl interpolate.
    fold n. fold modulePath. fold moduleName.
    by rewrite !append_assoc. }
  split; [exact Et |]. split; [exact Ef |].
  rewrite Et, Ef. intros E. apply append_inj_l in E. discriminate E.
Qed.

Lemma buildRoute_shape_witness :
  buildRoute (H := demo) widget_options true
  = "{ path: 'widgets', loadChildren: () => import('./widget/widget.module').then(m => m.WidgetModule) }"
  /\ buildRoute (H := demo) widget_options false
     = "{ path: 'widgets', loadChildren: './widget/widget.module#WidgetModule' }".
Proof.
  destruct (buildRoute_shape (H := demo) widget_options "widgets" eq_refl)
    as (Et & Ef & _).
  split; [exact Et | exact Ef].
Defined.

(** ** The routing sibling *)

Example routingModuleName_foo : routingModuleName "foo.module.ts" = "foo-routing".
Proof. reflexivity. Qed.

Example sibling_identifier_foo : sibling_identifier "foo.module.ts" = "foo-routing".
Proof. reflexivity. Qed.

(** The lookup for the sibling is the finder used for an explicit [module],
    on the same options with only [module] replaced by the derived name. *)
Lemma getRoutingModulePath_lookup `{Collaborators} (host : Tree)
    (options : ModuleOptions) (m : string) :
  module options = Some m ->
  routing_lookup_options options = set_module (Some (routingModuleName m)) options
  /\ getRoutingModulePath host options
     = match findModuleFromOptions host (routing_lookup_options options) with
       | Ok p => Ok p
       | Throw _ => Ok None
       end.
Proof.
  intros Hm. unfold getRoutingModulePath, routing_lookup_options.
  rewrite Hm. split; reflexivity.
Qed.

(** X13. Where no directory of the module path has a dot in its name, the
    name looked up for the sibling is the path with its base name cut at the
    first dot, followed by [-routing] (line 117). *)
Lemma routingModuleName_plain_directories (modulePath : Path) :
  has_dot (directory_part modulePath) = false ->
  routingModuleName modulePath = sibling_identifier modulePath.
Proof.
  unfold routingModuleName, sibling_identifier.
  induction modulePath as [|c rest IH]; [reflexivity |].
  simpl. destruct (has_slash rest) eqn:Hs.
  - simpl. intros [Hc Hd]%orb_false_elim.
    rewrite Hc, !append_cons. f_equal. by apply IH.
  - destruct (Ascii.eqb_spec c "/"%char) as [-> | Hc]; intros _.
    + reflexivity.
    + rewrite append_nil_l. reflexivity.
Qed.

(** C4. On a resolved module path with a dot in a directory name the code
    cuts at that dot: for [/projects/my.app/src/app/app.module.ts] it looks
    up [/projects/my-routing], where stripping from the first dot of the base
    name gives [/projects/my.app/src/app/app-routing]. *)
Theorem routingModuleName_dotted_directory :
  routingModuleName "/projects/my.app/src/app/app.module.ts"
  = "/projects/my-routing"
  /\ sibling_identifier "/projects/my.app/src/app/app.module.ts"
     = "/projects/my.app/src/app/app-routing"
  /\ routingModuleName "/projects/my.app/src/app/app.module.ts"
     <> sibling_identifier "/projects/my.app/src/app/app.module.ts".
Proof. split; [reflexivity |]. split; [reflexivity | discriminate]. Qed.

(** With the sample finder the cut at the directory's dot loses the sibling:
    it is in the tree, the lookup goes for [/projects/my-routing], and the
    route entry lands in the main descriptor. *)
Example dotted_directory_misses_sibling :
  is_Some (dotted_tree !! "/projects/my.app/src/app/app-routing.module.ts")
  /\ fst (prepare (H := demo) (start dotted_options dotted_tree)) = Ok None
  /\ head (st_log (snd (module_schematic (H := demo)
                          (start dotted_options dotted_tree))))
     = Some (EvRead "/projects/my.app/src/app/app.module.ts").
Proof. split; [by eexists |]. split; reflexivity. Qed.

(** ** Running rules *)

Lemma bind_Ok {A B} (m : M A) (k : A -> M B) (s s' : State) (a : A) :
  m s = (Ok a, s') -> bind m k s = k a s'.
Proof. intros E. unfold bind. by rewrite E. Qed.

Lemma bind_Throw {A B} (m : M A) (k : A -> M B) (s s' : State) (e : exn) :
  m s = (Throw e, s') -> bind m k s = (Throw e, s').
Proof. intros E. unfold bind. by rewrite E. Qed.

(** Unfolds the monad's operations and the host's until a rule has run. *)
Ltac run_rule :=
  repeat (progress (unfold beginUpdate, insertLeft, commitUpdate, host_read,
                      modify_options, external, lift, emit, put_host,
                      get_options, get_host, bind, ret, throw, noop;
                    simpl)).

Lemma logged_nil (s : State) : logged [] s = s.
Proof. destruct s. unfold logged. simpl. by rewrite app_nil_r. Qed.

Lemma logged_logged (evs evs' : list Event) (s : State) :
  logged evs' (logged evs s) = logged (evs ++ evs') s.
Proof. unfold logged. simpl. by rewrite app_assoc. Qed.

Lemma record_inserts_run (changes : list Change) (recorder : UpdateRecorder)
    (s : State) :
  record_inserts recorder changes s
  = (Ok {| rec_path := rec_path recorder;
           rec_original := rec_original recorder;
           rec_inserts := rec_inserts recorder ++ insert_changes changes |},
     logged (insert_event (rec_path recorder) <$> insert_changes changes) s).
Proof.
  revert recorder s.
  induction changes as [|c rest IH]; intros recorder s.
  - simpl. rewrite app_nil_r, logged_nil. by destruct recorder.
  - destruct c as [c | | |]; simpl; try apply IH.
    unfold bind at 1. unfold insertLeft, bind, emit, ret.
    rewrite IH. simpl. rewrite logged_logged, <- app_assoc. reflexivity.
Qed.

(** ** The import step *)

Lemma addDeclarationToNgModule_falsy_module `{Collaborators} (s : State) :
  truthy (module (st_options s)) = false ->
  addDeclarationToNgModule s = (Ok tt, s).
Proof.
  intros Hm. unfold addDeclarationToNgModule, bind, get_options.
  by rewrite Hm.
Qed.

(** C9. With [module] undefined the import step hands the host back as it
    got it: the state after it is the state before it, so nothing was read,
    no update was begun and no edit was staged. *)
Theorem addDeclarationToNgModule_without_module `{Collaborators} (s : State) :
  module (st_options s) = None ->
  addDeclarationToNgModule s = (Ok tt, s).
Proof.
  intros Hm. apply addDeclarationToNgModule_falsy_module. by rewrite Hm.
Qed.

Lemma addDeclarationToNgModule_without_module_witness :
  addDeclarationToNgModule (H := demo)
    (start (set_module None widget_options) plain_tree)
  = (Ok tt, start (set_module None widget_options) plain_tree).
Proof.
  apply (addDeclarationToNgModule_without_module (H := demo)). reflexivity.
Defined.

(** C7. When [module] is set the import step reads that path first. If the
    read gives [null] it throws [File <modulePath> does not exist.] with the
    read as its only event and the tree untouched; otherwise it asks the
    import analyser, opens a recorder on the file, registers every
    [InsertChange] in order and commits. *)
Theorem addDeclarationToNgModule_reads_module `{Collaborators} (s : State)
    (modulePath : Path) :
  module (st_options s) = Some modulePath ->
  truthy (Some modulePath) = true ->
  (st_host s !! modulePath = None ->
   addDeclarationToNgModule s
   = (Throw (SchematicsException
               ("File " +:+ modulePath +:+ " does not exist.")),
      logged [EvRead modulePath] s))
  /\ (forall sourceText, st_host s !! modulePath = Some sourceText ->
      let options := st_options s in
      let symbolName := classify (name options +:+ "Module") in
      let relativePath :=
        buildRelativePath modulePath (importModulePath options) in
      let inserts :=
        insert_changes
          (addImportToModule sourceText modulePath symbolName relativePath) in
      let recorder :=
        {| rec_path := modulePath; rec_original := sourceText;
           rec_inserts := inserts |} in
      addDeclarationToNgModule s
      = (Ok tt,
         with_host (<[modulePath := merged_text recorder]> (st_host s))
           (logged ([EvRead modulePath;
                     EvAddImportToModule modulePath symbolName relativePath;
                     EvBeginUpdate modulePath]
                    ++ (insert_event modulePath <$> inserts)
                    ++ [EvCommitUpdate modulePath]) s))).
Proof.
  intros Hm Ht. rewrite <- Hm in Ht.
  split.
  - intros Hread.
    unfold addDeclarationToNgModule. run_rule.
    rewrite Ht, Hm. simpl. by rewrite Hread.
  - intros sourceText Hread options symbolName relativePath inserts recorder.
    unfold addDeclarationToNgModule. run_rule.
    rewrite Ht, Hm. simpl. rewrite Hread. simpl. rewrite Hread.
    rewrite record_inserts_run. simpl.
    unfold with_host, logged. simpl. do 2 f_equal.
    rewrite <- !app_assoc. reflexivity.
Qed.

Lemma addDeclarationToNgModule_reads_module_witness :
  addDeclarationToNgModule (H := demo)
    (start (set_module (Some "/src/app/shop.module.ts") import_options)
       plain_tree)
  = (Throw (SchematicsException "File /src/app/shop.module.ts does not exist."),
     logged [EvRead "/src/app/shop.module.ts"]
       (start (set_module (Some "/src/app/shop.module.ts") import_options)
          plain_tree))
  /\ st_log (snd (addDeclarationToNgModule (H := demo)
                    (start (set_module (Some "/src/app/app.module.ts")
                              import_options) plain_tree)))
     = [EvRead "/src/app/app.module.ts";
        EvAddImportToModule "/src/app/app.module.ts" "WidgetModule"
          "./widget/widget.module";
        EvBeginUpdate "/src/app/app.module.ts";
        EvInsertLeft "/src/app/app.module.ts" 0
          "import { WidgetModule } from './widget/widget.module';";
        EvCommitUpdate "/src/app/app.module.ts"].
Proof.
  split.
  - apply (addDeclarationToNgModule_reads_module (H := demo)
             (start (set_module (Some "/src/app/shop.module.ts")
                       import_options) plain_tree)
             "/src/app/shop.module.ts" eq_refl eq_refl).
    reflexivity.
  - destruct (addDeclarationToNgModule_reads_module (H := demo)
                (start (set_module (Some "/src/app/app.module.ts")
                          import_options) plain_tree)
                "/src/app/app.module.ts" eq_refl eq_refl) as [_ Hrun].
    rewrite (Hrun _ eq_refl). reflexivity.
Defined.

(** ** What shaping the options leaves alone *)

(** [prepare] as one case analysis: default path, explicit module lookup,
    parsed name, and the sibling lookup of a lazy run. *)
Lemma prepare_run `{Collaborators} (s : State) :
  let host := st_host s in
  let finish := fun o3 : ModuleOptions =>
    if isLazyLoadedModuleGen o3
    then (getRoutingModulePath host (set_routingScope Child o3),
          with_options (set_routingScope Child o3) s)
    else (Ok None, with_options o3 s) in
  prepare s
  = match with_default_path host (st_options s) with
    | Throw e => (Throw e, s)
    | Ok o1 =>
        if truthy (module o1)
        then match findModuleFromOptions host o1 with
             | Ok found => finish (with_parsed_name (set_module found o1))
             | Throw e => (Throw e, with_options o1 s)
             end
        else finish (with_parsed_name o1)
    end.
Proof.
  destruct s as [o h l].
  unfold prepare, with_default_path, with_parsed_name, with_options,
    isLazyLoadedModuleGen.
  run_rule.
  destruct (path o) as [p |]; simpl;
    [| destruct (createDefaultPath h (project o)) as [d | e]; simpl;
       [| reflexivity]];
    (destruct (truthy (module o)) eqn:Hm; simpl;
     [ destruct (findModuleFromOptions _ _) as [found | e]; simpl;
       [ destruct (truthy (route o) && truthy found); reflexivity
       | reflexivity ]
     | rewrite Hm, andb_false_r; reflexivity ]).
Qed.

(** The default path leaves every option but [path] alone. *)
Lemma with_default_path_frame `{Collaborators} (host : Tree)
    (o o1 : ModuleOptions) :
  with_default_path host o = Ok o1 ->
  name o1 = name o /\ project o1 = project o /\ module o1 = module o
  /\ route o1 = route o /\ routingScope o1 = routingScope o
  /\ flat o1 = flat o /\ routing o1 = routing o /\ lintFix o1 = lintFix o.
Proof.
  unfold with_default_path. destruct (path o);
    [| destruct (createDefaultPath host (project o))];
    intros [= <-]; repeat split; reflexivity.
Qed.

(** [prepare] touches neither the tree nor the log, and of the options it
    leaves [project], [route], [flat], [routing] and [lintFix] as given; an
    unset [module] stays unset and no sibling is looked for. *)
Lemma prepare_frame `{Collaborators} (s : State) :
  let s1 := snd (prepare s) in
  st_host s1 = st_host s
  /\ st_log s1 = st_log s
  /\ project (st_options s1) = project (st_options s)
  /\ route (st_options s1) = route (st_options s)
  /\ flat (st_options s1) = flat (st_options s)
  /\ routing (st_options s1) = routing (st_options s)
  /\ lintFix (st_options s1) = lintFix (st_options s)
  /\ (truthy (module (st_options s)) = false ->
      module (st_options s1) = module (st_options s)
      /\ forall routingModulePath,
           fst (prepare s) = Ok routingModulePath ->
           routingModulePath = None).
Proof.
  rewrite prepare_run. simpl.
  destruct (with_default_path (st_host s) (st_options s)) as [o1 | e] eqn:Ho1;
    [| simpl; repeat split; intros; discriminate].
  destruct (with_default_path_frame _ _ _ Ho1)
    as (_ & Hp & Hm & Hr & _ & Hf & Hrt & Hlf).
  unfold isLazyLoadedModuleGen, with_parsed_name.
  destruct (truthy (module o1)) eqn:Hm1; simpl.
  - destruct (findModuleFromOptions (st_host s) o1) as [found | e]; simpl;
      [destruct (truthy (route o1) && truthy found); simpl |];
      repeat split; try assumption; intros; congruence.
  - rewrite Hm1, andb_false_r. simpl.
    repeat split; try assumption; intros; congruence.
Qed.

(** ** Rules keep the options and log what they do *)

Section Runs.
Context (Q : ModuleOptions -> Prop) (P : Event -> Prop).

Lemma runs_ret {A} (a : A) : runs Q P (ret a).
Proof. intros s _. split; [reflexivity |]. exists []. by rewrite app_nil_r. Qed.

Lemma runs_throw {A} (e : exn) : runs Q P (throw (A := A) e).
Proof. intros s _. split; [reflexivity |]. exists []. by rewrite app_nil_r. Qed.

Lemma runs_lift {A} (r : outcome A) : runs Q P (lift r).
Proof. intros s _. split; [reflexivity |]. exists []. by rewrite app_nil_r. Qed.

Lemma runs_get_options : runs Q P get_options.
Proof. intros s _. split; [reflexivity |]. exists []. by rewrite app_nil_r. Qed.

Lemma runs_get_host : runs Q P get_host.
Proof. intros s _. split; [reflexivity |]. exists []. by rewrite app_nil_r. Qed.

Lemma runs_put_host (h : Tree) : runs Q P (put_host h).
Proof. intros s _. split; [reflexivity |]. exists []. by rewrite app_nil_r. Qed.

Lemma runs_emit (e : Event) : P e -> runs Q P (emit e).
Proof. intros He s _. split; [reflexivity |]. exists [e]. by split; [| constructor]. Qed.

Lemma runs_bind {A B} (m : M A) (k : A -> M B) :
  runs Q P m -> (forall a, runs Q P (k a)) -> runs Q P (bind m k).
Proof.
  intros Hm Hk s HQ. destruct (Hm s HQ) as (Ho & evs & Hl & HP).
  unfold bind. destruct (m s) as [[a | e] s1]; simpl in *.
  - assert (HQ1 : Q (st_options s1)) by (by rewrite Ho).
    destruct (Hk a s1 HQ1) as (Ho' & evs' & Hl' & HP').
    split; [congruence |]. exists (evs ++ evs'). split.
    + by rewrite Hl', Hl, app_assoc.
    + by apply Forall_app.
  - split; [exact Ho |]. by exists evs.
Qed.

Lemma runs_if {A} (b : bool) (m1 m2 : M A) :
  runs Q P m1 -> runs Q P m2 -> runs Q P (if b then m1 else m2).
Proof. by destruct b. Qed.

Lemma runs_chain (rs : list (M unit)) :
  Forall (runs Q P) rs -> runs Q P (chain rs).
Proof.
  induction 1 as [| r rs Hr _ IH]; simpl.
  - apply runs_ret.
  - apply runs_bind; [exact Hr | intros _; exact IH].
Qed.

End Runs.

Lemma runs_weaken (Q Q' : ModuleOptions -> Prop) (P P' : Event -> Prop)
    {A} (m : M A) :
  (forall o, Q' o -> Q o) -> (forall e, P e -> P' e) ->
  runs Q P m -> runs Q' P' m.
Proof.
  intros HQ HP Hm s Hs. destruct (Hm s (HQ _ Hs)) as (Ho & evs & Hl & Hevs).
  split; [exact Ho |]. exists evs. split; [exact Hl |].
  eapply Forall_impl; eauto.
Qed.

Create HintDb runs discriminated.
#[local] Hint Resolve runs_ret runs_throw runs_lift runs_get_options
  runs_get_host runs_put_host runs_emit runs_if : runs.
#[local] Hint Extern 2 (runs _ _ (bind _ _)) =>
  apply runs_bind; [| intros ?] : runs.
#[local] Hint Extern 1 (_ = _) => reflexivity : runs.

Section HostRuns.
Context (Q : ModuleOptions -> Prop) (P : Event -> Prop).

Lemma runs_host_read (p : Path) : P (EvRead p) -> runs Q P (host_read p).
Proof. intros. unfold host_read. auto 10 with runs. Qed.

Lemma runs_beginUpdate (p : Path) :
  P (EvBeginUpdate p) -> runs Q P (beginUpdate p).
Proof.
  intros. unfold beginUpdate. apply runs_bind; [auto with runs |].
  intros h. destruct (h !! p); auto 10 with runs.
Qed.

Lemma runs_insertLeft (r : UpdateRecorder) (c : InsertChange) :
  P (insert_event (rec_path r) c) -> runs Q P (insertLeft r c).
Proof. intros. unfold insertLeft. auto 10 with runs. Qed.

Lemma runs_commitUpdate (r : UpdateRecorder) :
  P (EvCommitUpdate (rec_path r)) -> runs Q P (commitUpdate r).
Proof. intros. unfold commitUpdate. auto 10 with runs. Qed.

Lemma runs_external (f : Tree -> outcome Tree) : runs Q P (external f).
Proof. unfold external. auto 10 with runs. Qed.

Lemma runs_record_inserts (changes : list Change) (r : UpdateRecorder) :
  (forall p c, P (insert_event p c)) ->
  runs Q P (record_inserts r changes).
Proof.
  intros HP. revert r. induction changes as [| c rest IH]; intros r; simpl.
  - apply runs_ret.
  - destruct c; try apply IH.
    apply runs_bind; [by apply runs_insertLeft | intros r'; apply IH].
Qed.

End HostRuns.

#[local] Hint Resolve runs_host_read runs_beginUpdate runs_insertLeft
  runs_commitUpdate runs_external runs_record_inserts : runs.

(** The import step never calls the route analyser. *)
Lemma addDeclarationToNgModule_runs `{Collaborators} :
  runs any_options not_route addDeclarationToNgModule.
Proof.
  unfold addDeclarationToNgModule.
  apply runs_bind; [auto with runs |]. intros options.
  destruct (negb (truthy (module options))); [auto with runs |].
  apply runs_bind; [auto with runs |]. intros [sourceText |];
    auto 12 with runs.
Qed.

(** The route step never calls the import analyser. *)
Lemma addRouteDeclarationToNgModule_runs `{Collaborators}
    (project : WorkspaceProject) (routingModulePath : jsstring) :
  runs any_options not_import
       (addRouteDeclarationToNgModule project routingModulePath).
Proof.
  unfold addRouteDeclarationToNgModule.
  apply runs_bind; [auto with runs |]. intros options.
  destruct (negb (truthy (route options))); [auto with runs |].
  destruct (truthy (route options) && negb (truthy (module options)));
    [apply runs_throw |].
  apply runs_bind; [auto with runs |]. intros [sourceText |];
    [| apply runs_throw].
  auto 14 with runs.
Qed.

(** Without a route the route step logs nothing at all. *)
Lemma addRouteDeclarationToNgModule_no_route `{Collaborators}
    (project : WorkspaceProject) (routingModulePath : jsstring) (s : State) :
  truthy (route (st_options s)) = false ->
  addRouteDeclarationToNgModule project routingModulePath s = (Ok tt, s).
Proof.
  intros Hr. unfold addRouteDeclarationToNgModule. run_rule. by rewrite Hr.
Qed.

(** A rule that is a no-op in this state fits any description. *)
Lemma runs_skip (Q : ModuleOptions -> Prop) (P : Event -> Prop)
    (m : M unit) :
  (forall s, Q (st_options s) -> m s = (Ok tt, s)) -> runs Q P m.
Proof.
  intros Hm s HQ. rewrite (Hm s HQ). split; [reflexivity |].
  exists []. by rewrite app_nil_r.
Qed.

(** The three rules of other packages. *)
Lemma rules_tail_runs `{Collaborators} (Q : ModuleOptions -> Prop)
    (P : Event -> Prop) (options : ModuleOptions)
    (project : WorkspaceProject) (routingModulePath : jsstring) :
  Forall (runs Q P) (drop 2 (rules options project routingModulePath)).
Proof.
  unfold rules. simpl.
  repeat apply Forall_cons_2; [| | | apply Forall_nil_2].
  - apply runs_if; [apply runs_external | apply runs_ret].
  - apply runs_external.
  - apply runs_if; [apply runs_external | apply runs_ret].
Qed.

(** After [prepare] the project is read, and then the run is the chain,
    started on what [prepare] left. *)
Lemma module_schematic_run `{Collaborators} (s : State) :
  module_schematic s
  = match prepare s with
    | (Ok routingModulePath, s1) =>
        match getProject (st_host s1) (project (st_options s1)) with
        | Ok project =>
            chain (rules (st_options s1) project routingModulePath) s1
        | Throw e => (Throw e, s1)
        end
    | (Throw e, s1) => (Throw e, s1)
    end.
Proof.
  unfold module_schematic, bind at 1.
  destruct (prepare s) as [[routingModulePath | e] s1]; [| reflexivity].
  run_rule. by destruct (getProject _ _).
Qed.

(** The chain keeps the options, whatever they are. *)
Lemma rules_keep_options `{Collaborators} (options : ModuleOptions)
    (project : WorkspaceProject) (routingModulePath : jsstring) :
  runs any_options (fun _ => True)
       (chain (rules options project routingModulePath)).
Proof.
  apply runs_chain.
  assert (Ht := rules_tail_runs any_options (fun _ => True) options project
                  routingModulePath).
  unfold rules in *. simpl in Ht. apply Forall_cons_2; [| apply Forall_cons_2; [| exact Ht]].
  - apply runs_if; [| apply runs_ret].
    eapply runs_weaken; [| | apply addDeclarationToNgModule_runs]; auto.
  - eapply runs_weaken; [| | apply addRouteDeclarationToNgModule_runs]; auto.
Qed.

(** ** A route without a module *)

(** C2, as the code has it. When [route] is set and [module] is not, the
    route step throws [Module option required when creating a lazy loaded
    routing module.] in the state it was entered in. The whole run ends with
    that error, with the host tree as it was and with no read or update of
    the core logged, when the two workspace readers return: [createDefaultPath]
    if no [path] was given, and [getProject]. When one of them throws, the
    run ends with its exception instead, equally with nothing touched. Set
    and unset are the code's own tests on the two options: a non-empty
    string, and [undefined] or the empty string. *)
Theorem route_without_module_is_fatal `{Collaborators} (s : State) :
  truthy (route (st_options s)) = true ->
  truthy (module (st_options s)) = false ->
  (forall project routingModulePath,
     addRouteDeclarationToNgModule project routingModulePath s
     = (Throw (Error "Module option required when creating a lazy loaded routing module."),
        s))
  /\ (forall o1 workspaceProject,
        with_default_path (st_host s) (st_options s) = Ok o1 ->
        getProject (st_host s) (project (st_options s)) = Ok workspaceProject ->
        module_schematic s
        = (Throw (Error "Module option required when creating a lazy loaded routing module."),
           with_options (with_parsed_name o1) s))
  /\ (forall o1 e,
        with_default_path (st_host s) (st_options s) = Ok o1 ->
        getProject (st_host s) (project (st_options s)) = Throw e ->
        module_schematic s = (Throw e, with_options (with_parsed_name o1) s))
  /\ (forall e,
        with_default_path (st_host s) (st_options s) = Throw e ->
        module_schematic s = (Throw e, s)).
Proof.
  intros Hr Hm.
  assert (Hstep : forall s0 project routingModulePath,
             truthy (route (st_options s0)) = true ->
             truthy (module (st_options s0)) = false ->
             addRouteDeclarationToNgModule project routingModulePath s0
             = (Throw module_required, s0)).
  { intros s0 project routingModulePath Hr0 Hm0.
    unfold addRouteDeclarationToNgModule. run_rule. by rewrite Hr0, Hm0. }
  split; [intros; by apply Hstep |].
  assert (Hprep : forall o1,
             with_default_path (st_host s) (st_options s) = Ok o1 ->
             prepare s = (Ok None, with_options (with_parsed_name o1) s)
             /\ truthy (route (with_parsed_name o1)) = true
             /\ truthy (module (with_parsed_name o1)) = false
             /\ project (with_parsed_name o1) = project (st_options s)).
  { intros o1 Ho1.
    destruct (with_default_path_frame _ _ _ Ho1)
      as (_ & Hp1 & Hm1 & Hr1 & _).
    rewrite prepare_run, Ho1. simpl.
    unfold isLazyLoadedModuleGen, with_parsed_name. simpl.
    rewrite Hm1, Hm, andb_false_r, Hr1. by repeat split. }
  split; [| split].
  - intros o1 workspaceProject Ho1 Hproj.
    destruct (Hprep o1 Ho1) as (Hp & Hr1 & Hm1 & Hpr).
    rewrite module_schematic_run, Hp. simpl st_host. simpl st_options.
    rewrite Hpr, Hproj.
    unfold rules, isLazyLoadedModuleGen. rewrite Hr1, Hm1. simpl.
    rewrite (bind_Ok _ _ _ _ tt
               (addDeclarationToNgModule_falsy_module
                  (with_options (with_parsed_name o1) s) Hm1)).
    by apply bind_Throw, Hstep.
  - intros o1 e Ho1 Hproj.
    destruct (Hprep o1 Ho1) as (Hp & _ & _ & Hpr).
    rewrite module_schematic_run, Hp. simpl st_host. simpl st_options.
    by rewrite Hpr, Hproj.
  - intros e He. by rewrite module_schematic_run, prepare_run, He.
Qed.

(** An empty [route] is no route to the code: the run goes through and the
    route step does nothing. *)
Example empty_route_is_unset :
  module_schematic (H := demo)
    (start (set_module None
              {| name := "widget"; path := Some "/src/app";
                 project := Some "app"; module := None; route := Some "";
                 routingScope := Root; flat := false; routing := false;
                 lintFix := false |}) plain_tree)
  = (Ok tt,
     start {| name := "widget"; path := Some "/src/app";
              project := Some "app"; module := None; route := Some "";
              routingScope := Root; flat := false; routing := false;
              lintFix := false |} plain_tree).
Proof. reflexivity. Qed.

Lemma route_without_module_is_fatal_witness :
  fst (module_schematic (H := demo)
         (start (set_module None widget_options) routed_tree))
  = Throw (Error "Module option required when creating a lazy loaded routing module.").
Proof.
  destruct (route_without_module_is_fatal (H := demo)
              (start (set_module None widget_options) routed_tree)
              eq_refl eq_refl) as (_ & Hrun & _).
  rewrite (Hrun _ false eq_refl eq_refl). reflexivity.
Defined.

(** C2, as stated, fails: in a tree without a workspace file the run with a
    route and no module ends with the project reader's exception, not with
    the error about the missing module option. *)
Lemma route_without_module_in_stray_tree :
  let s := start (set_module None widget_options) stray_tree in
  truthy (route (st_options s)) = true
  /\ truthy (module (st_options s)) = false
  /\ fst (module_schematic (H := demo) s)
     = Throw (SchematicsException "Could not find (undefined)")
  /\ fst (module_schematic (H := demo) s)
     <> Throw (Error "Module option required when creating a lazy loaded routing module.").
Proof. repeat split; try reflexivity. discriminate. Qed.

(** ** Lazy routes and direct imports *)

Lemma lazy_run_prepared `{Collaborators} (s : State) :
  lazy_run s = true ->
  exists routingModulePath s1,
    prepare s = (Ok routingModulePath, s1)
    /\ isLazyLoadedModuleGen (st_options s1) = true.
Proof.
  unfold lazy_run. destruct (prepare s) as [[routingModulePath | e] s1];
    [eauto | discriminate].
Qed.

Lemma no_import_event (evs : list Event) :
  Forall not_import evs -> existsb is_import_event evs = false.
Proof.
  induction 1 as [| e evs He _ IH]; simpl; [reflexivity |].
  by rewrite He, IH.
Qed.

Lemma no_route_event (evs : list Event) :
  Forall not_route evs -> existsb is_route_event evs = false.
Proof.
  induction 1 as [| e evs He _ IH]; simpl; [reflexivity |].
  by rewrite He, IH.
Qed.

(** C3. In a run where lazy routing is active the first rule of the chain is
    [noop] in place of the import step, and the events the run adds to the
    log include no call of the import analyser: the new module is never both
    given a route entry and imported into the descriptor. *)
Theorem lazy_route_excludes_import `{Collaborators} (s : State) :
  lazy_run s = true ->
  (forall routingModulePath s1 project,
     prepare s = (Ok routingModulePath, s1) ->
     rules (st_options s1) project routingModulePath !! 0 = Some noop)
  /\ exists evs,
       st_log (snd (module_schematic s)) = st_log s ++ evs
       /\ Forall (fun e => is_import_event e = false) evs
       /\ existsb is_import_event evs && existsb is_route_event evs = false.
Proof.
  intros Hlazy.
  destruct (lazy_run_prepared s Hlazy) as (routingModulePath & s1 & Hp & Hl).
  split.
  - intros r' s1' project Hp'. rewrite Hp in Hp'. injection Hp' as <- <-.
    unfold rules. by rewrite Hl.
  - destruct (prepare_frame s) as (_ & Hlog & _).
    rewrite module_schematic_run. rewrite Hp in *. simpl in Hlog.
    destruct (getProject (st_host s1) (project (st_options s1)))
      as [project | e];
      [| simpl; exists []; rewrite app_nil_r; by repeat split].
    assert (Hchain : runs any_options not_import
                       (chain (rules (st_options s1) project
                                 routingModulePath))).
    { apply runs_chain.
      assert (Ht := rules_tail_runs any_options not_import (st_options s1)
                      project routingModulePath).
      unfold rules in *. rewrite Hl in *. simpl in *.
      apply Forall_cons_2; [apply runs_ret |].
      apply Forall_cons_2; [apply addRouteDeclarationToNgModule_runs |].
      exact Ht. }
    destruct (Hchain s1 I) as (_ & evs & Hevs & Hnone).
    exists evs. rewrite Hevs, Hlog. split; [reflexivity |].
    split; [exact Hnone |]. by rewrite (no_import_event evs Hnone).
Qed.

Lemma lazy_route_excludes_import_witness :
  existsb is_import_event
    (st_log (snd (module_schematic (H := demo)
                    (start widget_options routed_tree))))
  = false.
Proof.
  destruct (lazy_route_excludes_import (H := demo)
              (start widget_options routed_tree) eq_refl)
    as (_ & evs & Hlog & Hnone & _).
  rewrite Hlog. simpl. by apply no_import_event.
Defined.

(** X12. The same holds of every run, lazy or not: a run never calls both
    analysers, so the new module is never registered both ways (lines 36-38,
    79-84 and 177-179). *)
Lemma import_and_route_exclusive `{Collaborators} (s : State) :
  exists evs,
    st_log (snd (module_schematic s)) = st_log s ++ evs
    /\ existsb is_import_event evs && existsb is_route_event evs = false.
Proof.
  destruct (prepare_frame s) as (_ & Hlog & _).
  rewrite module_schematic_run.
  destruct (prepare s) as [[routingModulePath | e] s1]; simpl in Hlog;
    [| exists []; by rewrite app_nil_r].
  rewrite <- Hlog.
  destruct (getProject (st_host s1) (project (st_options s1)))
    as [project | e]; [| simpl; exists []; by rewrite app_nil_r].
  assert (Ht := fun Q P => rules_tail_runs Q P (st_options s1) project
                             routingModulePath).
  destruct (truthy (route (st_options s1))) eqn:Hr;
    [destruct (truthy (module (st_options s1))) eqn:Hm |].
  - (* lazy: the import step is not in the chain *)
    assert (Hchain : runs any_options not_import
                       (chain (rules (st_options s1) project
                                 routingModulePath))).
    { apply runs_chain. specialize (Ht any_options not_import).
      unfold rules, isLazyLoadedModuleGen in *. rewrite Hr, Hm in *.
      simpl in *.
      apply Forall_cons_2; [apply runs_ret |].
      apply Forall_cons_2; [apply addRouteDeclarationToNgModule_runs |].
      exact Ht. }
    destruct (Hchain s1 I) as (_ & evs & Hevs & Hnone).
    exists evs. split; [exact Hevs |]. by rewrite (no_import_event evs Hnone).
  - (* a route without a module: the import step returns at once *)
    assert (Hchain : runs (fun o => truthy (module o) = false) not_import
                       (chain (rules (st_options s1) project
                                 routingModulePath))).
    { apply runs_chain. specialize (Ht (fun o => truthy (module o) = false)
                                       not_import).
      unfold rules, isLazyLoadedModuleGen in *. rewrite Hr, Hm in *.
      simpl in *.
      apply Forall_cons_2;
        [apply runs_skip, @addDeclarationToNgModule_falsy_module |].
      apply Forall_cons_2; [| exact Ht].
      eapply runs_weaken; [| | apply addRouteDeclarationToNgModule_runs];
        simpl; auto. }
    destruct (Hchain s1 Hm) as (_ & evs & Hevs & Hnone).
    exists evs. split; [exact Hevs |]. by rewrite (no_import_event evs Hnone).
  - (* no route: the route step returns at once *)
    assert (Hchain : runs (fun o => truthy (route o) = false) not_route
                       (chain (rules (st_options s1) project
                                 routingModulePath))).
    { apply runs_chain. specialize (Ht (fun o => truthy (route o) = false)
                                       not_route).
      unfold rules, isLazyLoadedModuleGen in *. rewrite Hr in *.
      simpl in *.
      apply Forall_cons_2;
        [eapply runs_weaken; [| | apply addDeclarationToNgModule_runs];
         simpl; auto |].
      apply Forall_cons_2; [| exact Ht].
      apply runs_skip. intros s0.
      apply addRouteDeclarationToNgModule_no_route. }
    destruct (Hchain s1 Hr) as (_ & evs & Hevs & Hnone).
    exists evs. split; [exact Hevs |].
    by rewrite (no_route_event evs Hnone), andb_false_r.
Qed.

(** ** The options object *)

(** What [prepare] has made of the options when it returns. *)
Lemma prepare_rewrites `{Collaborators} (s s1 : State)
    (routingModulePath : jsstring) :
  prepare s = (Ok routingModulePath, s1) ->
  let o := st_options s in
  exists given,
    match path o with
    | Some p => given = p
    | None => createDefaultPath (st_host s) (project o) = Ok given
    end
    /\ name (st_options s1) = loc_name (parseName given (name o))
    /\ path (st_options s1) = Some (loc_path (parseName given (name o)))
    /\ (if truthy (module o)
        then findModuleFromOptions (st_host s) (set_path (Some given) o)
             = Ok (module (st_options s1))
        else module (st_options s1) = module o)
    /\ routingScope (st_options s1)
       = if isLazyLoadedModuleGen (st_options s1) then Child
         else routingScope o.
Proof.
  rewrite prepare_run. destruct s as [o h l]. simpl.
  assert (Hgiven : forall o1, with_default_path h o = Ok o1 ->
             exists given,
               o1 = set_path (Some given) o
               /\ match path o with
                  | Some p => given = p
                  | None => createDefaultPath h (project o) = Ok given
                  end).
  { unfold with_default_path. intros o1.
    destruct o as [n [p |] pr m r rs f rt lf]; simpl.
    - intros [= <-]. by exists p.
    - destruct (createDefaultPath h pr) as [d | e]; intros [= <-].
      by exists d. }
  destruct (with_default_path h o) as [o1 | e]; [| discriminate].
  destruct (Hgiven o1 eq_refl) as (given & -> & Hpath).
  intros Hrun. exists given. split; [exact Hpath |].
  unfold with_parsed_name, isLazyLoadedModuleGen in *. simpl in *.
  destruct (truthy (module o)) eqn:Hm.
  - destruct (findModuleFromOptions h (set_path (Some given) o))
      as [found | e]; [| discriminate].
    destruct (truthy (route o) && truthy found) eqn:Hl;
      apply (f_equal snd) in Hrun; simpl in Hrun; subst s1; simpl;
      rewrite Hl; by repeat split.
  - rewrite andb_false_r in Hrun.
    apply (f_equal snd) in Hrun. simpl in Hrun. subst s1. simpl.
    rewrite Hm, andb_false_r. by repeat split.
Qed.

(** C8, as the code has it. The rule factory rewrites four options in place
    before it builds the chain: when the shaping returns, [name] and [path]
    are the two halves of [parseName] applied to the given name and to the
    given path (or the project's default path when none was given), an
    explicit [module] is the finder's answer, and [routingScope] is [Child]
    when lazy routing is active. It leaves [project], [route], [flat],
    [routing] and [lintFix] as they were given, and once the chain is built
    nothing changes the object any more: neither the import step nor the
    route step, nor the chain as a whole. *)
Theorem options_after_preparation `{Collaborators} (s : State) :
  let s' := snd (module_schematic s) in
  let o := st_options s in
  (forall routingModulePath s1,
     prepare s = (Ok routingModulePath, s1) ->
     exists given,
       match path o with
       | Some p => given = p
       | None => createDefaultPath (st_host s) (project o) = Ok given
       end
       /\ name (st_options s1) = loc_name (parseName given (name o))
       /\ path (st_options s1) = Some (loc_path (parseName given (name o)))
       /\ (if truthy (module o)
           then findModuleFromOptions (st_host s) (set_path (Some given) o)
                = Ok (module (st_options s1))
           else module (st_options s1) = module o)
       /\ routingScope (st_options s1)
          = if isLazyLoadedModuleGen (st_options s1) then Child
            else routingScope o)
  /\ (project (st_options s') = project o
      /\ route (st_options s') = route o
      /\ flat (st_options s') = flat o
      /\ routing (st_options s') = routing o
      /\ lintFix (st_options s') = lintFix o)
  /\ st_options s' = st_options (snd (prepare s))
  /\ st_options (snd (addDeclarationToNgModule s)) = st_options s
  /\ (forall project routingModulePath,
        st_options (snd (addRouteDeclarationToNgModule
                           project routingModulePath s))
        = st_options s).
Proof.
  assert (Hkeep : st_options (snd (module_schematic s))
                  = st_options (snd (prepare s))).
  { rewrite module_schematic_run.
    destruct (prepare s) as [[routingModulePath | e] s1]; [| reflexivity].
    destruct (getProject _ _) as [project | e]; [| reflexivity].
    apply (rules_keep_options (st_options s1) project routingModulePath
             s1 I). }
  simpl. rewrite Hkeep.
  destruct (prepare_frame s) as (_ & _ & Hp & Hr & Hf & Hrt & Hlf & _).
  split; [intros routingModulePath s1; apply prepare_rewrites |].
  repeat split; try assumption.
  - apply (addDeclarationToNgModule_runs s I).
  - intros project routingModulePath.
    apply (addRouteDeclarationToNgModule_runs project routingModulePath s I).
Qed.

(** C8, as stated, fails: a lazy run on the sample tree starts with
    [routingScope] [Root] and the unresolved [module] and ends with [Child]
    and the resolved path. *)
Lemma options_rewritten_by_run :
  let s := start widget_options routed_tree in
  let s' := snd (module_schematic (H := demo) s) in
  routingScope (st_options s) = Root
  /\ routingScope (st_options s') = Child
  /\ module (st_options s) = Some "app.module.ts"
  /\ module (st_options s') = Some "/src/app/app.module.ts"
  /\ st_options s' <> st_options s.
Proof. repeat split; try reflexivity. discriminate. Qed.

(** ** The route step *)

(** What the route step does once [route] and [module] are both set: one
    read of the target, and then either the error for an unreadable target,
    or the analyser's own error, or one committed insert. *)
Lemma addRouteDeclarationToNgModule_run `{Collaborators} (s : State)
    (project : WorkspaceProject) (routingModulePath : jsstring) :
  truthy (route (st_options s)) = true ->
  truthy (module (st_options s)) = true ->
  let options := st_options s in
  let target := route_target options routingModulePath in
  let literal := buildRoute options (isProjectUsingIvy (st_host s) project) in
  addRouteDeclarationToNgModule project routingModulePath s
  = match st_host s !! target with
    | None =>
        (Throw (Error "Couldn't find the module nor its routing module."),
         logged [EvRead target] s)
    | Some sourceText =>
        match addRouteDeclarationToModule sourceText target literal with
        | Throw e =>
            (Throw e,
             logged [EvRead target;
                     EvAddRouteDeclarationToModule target literal] s)
        | Ok change =>
            (Ok tt,
             with_host
               (<[target := merged_text
                              {| rec_path := target;
                                 rec_original := sourceText;
                                 rec_inserts := [change] |}]> (st_host s))
               (logged [EvRead target;
                        EvAddRouteDeclarationToModule target literal;
                        EvBeginUpdate target;
                        insert_event target change;
                        EvCommitUpdate target] s))
        end
    end.
Proof.
  intros Hr Hm options target literal.
  unfold addRouteDeclarationToNgModule. run_rule. rewrite Hr, Hm. simpl.
  fold options. fold target.
  destruct (st_host s !! target) as [sourceText |] eqn:Hread;
    [| reflexivity].
  simpl. fold literal.
  destruct (addRouteDeclarationToModule sourceText target literal)
    as [change | e]; simpl.
  - rewrite Hread. simpl. unfold with_host, logged. simpl.
    by rewrite <- !app_assoc.
  - by rewrite logged_logged.
Qed.

(** A computation that logs nothing leaves the log as it is. *)
Lemma runs_silent (Q : ModuleOptions -> Prop) {A} (m : M A) (s : State) :
  runs Q (fun _ => False) m -> Q (st_options s) ->
  st_log (snd (m s)) = st_log s.
Proof.
  intros Hm HQ. destruct (Hm s HQ) as (_ & evs & Hlog & Hnone).
  destruct evs as [| e evs]; [by rewrite Hlog, app_nil_r |].
  by apply Forall_cons in Hnone as [[] _].
Qed.

(** The rules after the route step belong to other packages and add nothing
    to the log. *)
Lemma rules_tail_silent `{Collaborators} (options : ModuleOptions)
    (project : WorkspaceProject) (routingModulePath : jsstring) (s : State) :
  st_log (snd (chain (drop 2 (rules options project routingModulePath)) s))
  = st_log s.
Proof.
  apply (runs_silent any_options); [| exact I].
  apply runs_chain, rules_tail_runs.
Qed.

(** The log of a run is the log of its first two rules. *)
Lemma chain_rules_log `{Collaborators} (options : ModuleOptions)
    (project : WorkspaceProject) (routingModulePath : jsstring) (s : State) :
  let first :=
    if negb (isLazyLoadedModuleGen options)
    then addDeclarationToNgModule else noop in
  let second := addRouteDeclarationToNgModule project routingModulePath in
  st_log (snd (chain (rules options project routingModulePath) s))
  = st_log (snd ((first >> second) s)).
Proof.
  simpl.
  assert (Htail := rules_tail_silent options project routingModulePath).
  unfold rules in *. simpl in *.
  set (first := if negb (isLazyLoadedModuleGen options)
                then addDeclarationToNgModule else noop) in *.
  set (second := addRouteDeclarationToNgModule _ _) in *.
  destruct (first s) as [[[] | e] s2] eqn:E1.
  - rewrite !(bind_Ok _ _ _ _ _ E1).
    destruct (second s2) as [[[] | e] s3] eqn:E2.
    + rewrite (bind_Ok _ _ _ _ _ E2). apply Htail.
    + by rewrite (bind_Throw _ _ _ _ _ E2).
  - by rewrite !(bind_Throw _ _ _ _ _ E1).
Qed.

(** The events of the route step once [route] and [module] are both set:
    all about its target, starting with the read, and ending with the
    commit of the entry when the target is read and the analyser finds its
    place. *)
Lemma route_step_events `{Collaborators} (s : State)
    (project : WorkspaceProject) (routingModulePath : jsstring) :
  truthy (route (st_options s)) = true ->
  truthy (module (st_options s)) = true ->
  let target := route_target (st_options s) routingModulePath in
  let literal :=
    buildRoute (st_options s) (isProjectUsingIvy (st_host s) project) in
  exists evs,
    st_log (snd (addRouteDeclarationToNgModule project routingModulePath s))
    = st_log s ++ evs
    /\ head evs = Some (EvRead target)
    /\ Forall (fun e => event_path e = target) evs
    /\ (forall sourceText change,
          st_host s !! target = Some sourceText ->
          addRouteDeclarationToModule sourceText target literal = Ok change ->
          evs = [EvRead target;
                 EvAddRouteDeclarationToModule target literal;
                 EvBeginUpdate target;
                 insert_event target change;
                 EvCommitUpdate target]).
Proof.
  intros Hr Hm target literal.
  rewrite (addRouteDeclarationToNgModule_run s project routingModulePath
             Hr Hm). simpl. fold target literal.
  destruct (st_host s !! target) as [sourceText |]; simpl.
  - destruct (addRouteDeclarationToModule sourceText target literal)
      as [change | e] eqn:Hfound; simpl; eexists;
      (split; [reflexivity |]); (split; [reflexivity |]);
      (split; [repeat apply Forall_cons_2; done |]);
      intros sourceText' change' [= <-] Hfound'; congruence.
  - eexists. split; [reflexivity |]. split; [reflexivity |].
    split; [repeat apply Forall_cons_2; done | intros; discriminate].
Qed.

(** The log of a lazy run is the log of its route step. *)
Lemma lazy_run_log `{Collaborators} (s s1 : State)
    (routingModulePath : jsstring) (workspaceProject : WorkspaceProject) :
  prepare s = (Ok routingModulePath, s1) ->
  isLazyLoadedModuleGen (st_options s1) = true ->
  getProject (st_host s) (project (st_options s)) = Ok workspaceProject ->
  st_log (snd (module_schematic s))
  = st_log (snd (addRouteDeclarationToNgModule workspaceProject
                   routingModulePath s1)).
Proof.
  intros Hp Hl Hproj.
  destruct (prepare_frame s) as (Hh & _ & Hpr & _).
  rewrite Hp in Hh, Hpr. simpl in Hh, Hpr.
  rewrite module_schematic_run, Hp, Hh, Hpr, Hproj, chain_rules_log.
  simpl. rewrite Hl. simpl.
  unfold noop. by rewrite (bind_Ok (ret tt) _ s1 s1 tt).
Qed.



(** C6, as the code has it. With [route] and [module] set, the route step
    targets one file: the sibling's path when one was found, the main module
    descriptor otherwise. It throws [Couldn't find the module nor its routing
    module.] exactly when it cannot read that file, having done nothing but
    the read. When the file can be read, an exception of the route analyser
    is passed on as it is, and with a readable target that message can only
    be the analyser's own. *)
Theorem route_host_not_found_when_unreadable `{Collaborators} (s : State)
    (project : WorkspaceProject) (routingModulePath : jsstring) :
  truthy (route (st_options s)) = true ->
  truthy (module (st_options s)) = true ->
  let target := route_target (st_options s) routingModulePath in
  let literal :=
    buildRoute (st_options s) (isProjectUsingIvy (st_host s) project) in
  let result := addRouteDeclarationToNgModule project routingModulePath s in
  (st_host s !! target = None ->
   result
   = (Throw (Error "Couldn't find the module nor its routing module."),
      logged [EvRead target] s))
  /\ (forall sourceText e,
        st_host s !! target = Some sourceText ->
        addRouteDeclarationToModule sourceText target literal = Throw e ->
        result
        = (Throw e,
           logged [EvRead target; EvAddRouteDeclarationToModule target literal]
                  s))
  /\ (forall sourceText,
        st_host s !! target = Some sourceText ->
        fst result
        = Throw (Error "Couldn't find the module nor its routing module.") ->
        addRouteDeclarationToModule sourceText target literal
        = Throw (Error "Couldn't find the module nor its routing module.")).
Proof.
  intros Hr Hm target literal result.
  assert (Hrun := addRouteDeclarationToNgModule_run s project
                    routingModulePath Hr Hm).
  simpl in Hrun. fold target literal result in Hrun.
  repeat split.
  - intros Hread. by rewrite Hrun, Hread.
  - intros sourceText e Hread Hthrow. by rewrite Hrun, Hread, Hthrow.
  - intros sourceText Hread. rewrite Hrun, Hread.
    destruct (addRouteDeclarationToModule sourceText target literal);
      simpl; [discriminate | congruence].
Qed.

Lemma route_host_not_found_when_unreadable_witness :
  addRouteDeclarationToNgModule (H := demo) false None
    (start (set_module (Some "/src/app/shop.module.ts") widget_options)
       plain_tree)
  = (Throw (Error "Couldn't find the module nor its routing module."),
     logged [EvRead "/src/app/shop.module.ts"]
       (start (set_module (Some "/src/app/shop.module.ts") widget_options)
          plain_tree)).
Proof.
  apply (route_host_not_found_when_unreadable (H := demo)
           (start (set_module (Some "/src/app/shop.module.ts") widget_options)
              plain_tree)
           false None eq_refl eq_refl).
  reflexivity.
Defined.

(** C6, as stated, fails: the one descriptor of this tree can be read and
    holds no route table, there is no sibling, and the route step ends with
    the analyser's complaint, not with [Couldn't find the module nor its
    routing module.]; so does the whole run. *)
Lemma missing_route_table_is_not_route_host_error :
  let options := set_module (Some "/src/app/app.module.ts") widget_options in
  let complaint :=
    Error "Couldn't find a route declaration in /src/app/app.module.ts." in
  bare_tree !! "/src/app/app.module.ts" = Some "export class AppModule {}"
  /\ bare_tree !! "/src/app/app-routing.module.ts" = None
  /\ (forall literal,
        addRouteDeclarationToModule (Collaborators := demo)
          "export class AppModule {}" "/src/app/app.module.ts" literal
        = Throw complaint)
  /\ fst (addRouteDeclarationToNgModule (H := demo) false None
            (start options bare_tree))
     = Throw complaint
  /\ fst (module_schematic (H := demo) (start widget_options bare_tree))
     = Throw complaint
  /\ fst (addRouteDeclarationToNgModule (H := demo) false None
            (start options bare_tree))
     <> Throw (Error "Couldn't find the module nor its routing module.").
Proof. repeat split; try reflexivity. discriminate. Qed.

(** * Further properties of the schematic *)

(** ** Shaping the options, step by step *)

(** X1. When the explicit [module] cannot be resolved the run ends with the
    finder's own exception (lines 147-149) before anything else happens: the
    lookup is made on the options as given, with only [path] defaulted, and
    the tree and the log are as they were. *)
Theorem unresolved_module_aborts_run `{Collaborators} (s : State)
    (o1 : ModuleOptions) (e : exn) :
  with_default_path (st_host s) (st_options s) = Ok o1 ->
  truthy (module (st_options s)) = true ->
  findModuleFromOptions (st_host s) o1 = Throw e ->
  module_schematic s = (Throw e, with_options o1 s).
Proof.
  intros Ho1 Hm Hfind. rewrite module_schematic_run, prepare_run, Ho1. simpl.
  destruct (with_default_path_frame _ _ _ Ho1) as (_ & _ & Hm1 & _).
  by rewrite Hm1, Hm, Hfind.
Qed.

Lemma unresolved_module_aborts_run_witness :
  module_schematic (H := demo)
    (start (set_module (Some "shop.module.ts") import_options) plain_tree)
  = (Throw (Error "Specified module 'shop.module.ts' does not exist."),
     start (set_module (Some "shop.module.ts") import_options) plain_tree).
Proof.
  exact (unresolved_module_aborts_run (H := demo)
           (start (set_module (Some "shop.module.ts") import_options)
              plain_tree)
           (set_module (Some "shop.module.ts") import_options)
           (Error "Specified module 'shop.module.ts' does not exist.")
           eq_refl eq_refl eq_refl).
Defined.

(** X2. When [prepare] returns, [routingScope] is [Child] if the run is lazy;
    otherwise it is what the caller gave, and no routing sibling was looked
    for (lines 155-160). *)
Theorem lazy_run_forces_child_scope `{Collaborators} (s s1 : State)
    (routingModulePath : jsstring) :
  prepare s = (Ok routingModulePath, s1) ->
  (isLazyLoadedModuleGen (st_options s1) = true ->
   routingScope (st_options s1) = Child)
  /\ (isLazyLoadedModuleGen (st_options s1) = false ->
      routingScope (st_options s1) = routingScope (st_options s)
      /\ routingModulePath = None).
Proof.
  rewrite prepare_run. simpl.
  destruct (with_default_path (st_host s) (st_options s)) as [o1 | e] eqn:Ho1;
    [| discriminate].
  assert (Hscope : routingScope o1 = routingScope (st_options s))
    by (by destruct (with_default_path_frame _ _ _ Ho1)
             as (_ & _ & _ & _ & Hrs & _)).
  assert (Hfinish : forall o3,
             routingScope o3 = routingScope (st_options s) ->
             (if isLazyLoadedModuleGen o3
              then (getRoutingModulePath (st_host s)
                      (set_routingScope Child o3),
                    with_options (set_routingScope Child o3) s)
              else (Ok None, with_options o3 s))
             = (Ok routingModulePath, s1) ->
             (isLazyLoadedModuleGen (st_options s1) = true ->
              routingScope (st_options s1) = Child)
             /\ (isLazyLoadedModuleGen (st_options s1) = false ->
                 routingScope (st_options s1) = routingScope (st_options s)
                 /\ routingModulePath = None)).
  { intros o3 Ho3. destruct (isLazyLoadedModuleGen o3) eqn:Hl;
      intros [= Hout <-]; simpl.
    - split; [reflexivity |].
      unfold isLazyLoadedModuleGen in *. simpl. by rewrite Hl.
    - split; [by rewrite Hl |]. intros _. by split. }
  destruct (truthy (module o1)).
  - destruct (findModuleFromOptions (st_host s) o1) as [found | e];
      [| discriminate].
    by apply Hfinish.
  - by apply Hfinish.
Qed.

Lemma lazy_run_forces_child_scope_witness :
  routingScope (st_options (snd (prepare (H := demo)
                                   (start widget_options routed_tree))))
  = Child
  /\ routingScope (st_options (snd (prepare (H := demo)
                                      (start import_options plain_tree))))
     = Root.
Proof.
  split.
  - refine (proj1 (lazy_run_forces_child_scope (H := demo)
                     (start widget_options routed_tree) _ _ eq_refl) eq_refl).
  - refine (proj1 (proj2 (lazy_run_forces_child_scope (H := demo)
                            (start import_options plain_tree) _ _ eq_refl)
                     eq_refl)).
Defined.

(** X3. When [prepare] returns, [name] and [path] are the two halves of
    [parseName] applied to the given name and to the given path, or to the
    project's default path when none was given; an explicit [module] has
    been replaced by the finder's answer for the options before that split,
    and an unset one is left alone (lines 143-153). *)
Theorem prepare_parses_name_and_path `{Collaborators} (s s1 : State)
    (routingModulePath : jsstring) :
  prepare s = (Ok routingModulePath, s1) ->
  let o := st_options s in
  exists given,
    match path o with
    | Some p => given = p
    | None => createDefaultPath (st_host s) (project o) = Ok given
    end
    /\ name (st_options s1) = loc_name (parseName given (name o))
    /\ path (st_options s1) = Some (loc_path (parseName given (name o)))
    /\ (if truthy (module o)
        then findModuleFromOptions (st_host s) (set_path (Some given) o)
             = Ok (module (st_options s1))
        else module (st_options s1) = module o).
Proof.
  intros Hp. destruct (prepare_rewrites s s1 routingModulePath Hp)
    as (given & Hgiven & Hname & Hpath & Hmod & _).
  by exists given.
Qed.

Lemma prepare_parses_name_and_path_witness :
  path (st_options (snd (prepare (H := demo)
                           (start (set_path None import_options) plain_tree))))
  = Some "/src/app"
  /\ module (st_options (snd (prepare (H := demo)
                                (start (set_path None import_options)
                                   plain_tree))))
     = Some "/src/app/app.module.ts".
Proof.
  destruct (prepare_parses_name_and_path (H := demo)
              (start (set_path None import_options) plain_tree) _ _ eq_refl)
    as (given & Hgiven & _ & Hpath & _).
  split; [| reflexivity].
  etransitivity; [exact Hpath |].
  vm_compute in Hgiven. injection Hgiven as <-. reflexivity.
Defined.

(** ** The two steps and the tree *)

(** What the import step does once [module] is set: one read, and then
    either the error for a missing file or one committed update. *)
Lemma addDeclarationToNgModule_run `{Collaborators} (s : State) :
  truthy (module (st_options s)) = true ->
  let options := st_options s in
  let modulePath := as_string (module options) in
  let symbolName := classify (name options +:+ "Module") in
  let relativePath :=
    buildRelativePath modulePath (importModulePath options) in
  addDeclarationToNgModule s
  = match st_host s !! modulePath with
    | None =>
        (Throw (SchematicsException
                  ("File " +:+ modulePath +:+ " does not exist.")),
         logged [EvRead modulePath] s)
    | Some sourceText =>
        let inserts :=
          insert_changes
            (addImportToModule sourceText modulePath symbolName relativePath)
        in
        (Ok tt,
         with_host
           (<[modulePath := merged_text
                              {| rec_path := modulePath;
                                 rec_original := sourceText;
                                 rec_inserts := inserts |}]> (st_host s))
           (logged ([EvRead modulePath;
                     EvAddImportToModule modulePath symbolName relativePath;
                     EvBeginUpdate modulePath]
                    ++ (insert_event modulePath <$> inserts)
                    ++ [EvCommitUpdate modulePath]) s))
    end.
Proof.
  intros Hm options modulePath symbolName relativePath.
  unfold addDeclarationToNgModule. run_rule. rewrite Hm. simpl.
  fold options modulePath.
  destruct (st_host s !! modulePath) as [sourceText |] eqn:Hread;
    [| reflexivity].
  simpl. rewrite Hread. rewrite record_inserts_run. simpl.
  unfold with_host, logged. simpl. do 2 f_equal.
  rewrite <- !app_assoc. reflexivity.
Qed.

(** C10. The route entry depends on [name] and [route] only: two option
    records with the same [name] and [route] get the same text from
    [buildRoute], whatever their [path] and [flat] are, and the module path in
    it is [./<name>/<name>.module]. The import step is different. The import
    path it hands to the analyser is [buildRelativePath] of the module path
    and of [normalize] applied to a text built from [path], [flat] and the
    dasherized name; that text changes with [flat] and changes with [path],
    and so does the import path whenever [normalize] and [buildRelativePath]
    keep the two texts apart. *)
Theorem buildRoute_ignores_path_and_flat `{Collaborators}
    (o1 o2 : ModuleOptions) (ivyEnabled : bool) :
  name o1 = name o2 ->
  route o1 = route o2 ->
  let import_path := fun (modulePath : Path) (o : ModuleOptions) =>
    buildRelativePath modulePath
      (normalize
         ("/" +:+ interpolate (path o) +:+ "/"
          +:+ (if flat o then "" else dasherize (name o) +:+ "/")
          +:+ dasherize (name o) +:+ ".module")) in
  buildRoute o1 ivyEnabled = buildRoute o2 ivyEnabled
  /\ (exists before after,
        buildRoute o1 ivyEnabled
        = before +:+ ("./" +:+ name o1 +:+ "/" +:+ name o1 +:+ ".module")
          +:+ after)
  /\ (forall s modulePath sourceText,
        (st_options s = o1 \/ st_options s = o2) ->
        module (st_options s) = Some modulePath ->
        truthy (Some modulePath) = true ->
        st_host s !! modulePath = Some sourceText ->
        EvAddImportToModule modulePath
          (classify (name (st_options s) +:+ "Module"))
          (import_path modulePath (st_options s))
        ∈ st_log (snd (addDeclarationToNgModule s)))
  /\ (path o1 = path o2 -> flat o1 <> flat o2 ->
      importModulePath_text o1 <> importModulePath_text o2)
  /\ (flat o1 = flat o2 -> interpolate (path o1) <> interpolate (path o2) ->
      importModulePath_text o1 <> importModulePath_text o2)
  /\ (forall modulePath,
        (import_path modulePath o1 = import_path modulePath o2 ->
         importModulePath_text o1 = importModulePath_text o2) ->
        (path o1 = path o2 /\ flat o1 <> flat o2)
        \/ (flat o1 = flat o2
            /\ interpolate (path o1) <> interpolate (path o2)) ->
        import_path modulePath o1 <> import_path modulePath o2).
Proof.
  intros Hn Hr import_path.
  assert (Hflat : path o1 = path o2 -> flat o1 <> flat o2 ->
                  importModulePath_text o1 <> importModulePath_text o2).
  { intros Hp Hf E. unfold importModulePath_text in E.
    rewrite Hn, Hp in E.
    do 3 apply append_inj_l in E.
    apply (f_equal String.length) in E.
    destruct (flat o1), (flat o2); try congruence;
      rewrite ?append_nil_l, ?append_assoc, ?append_length in E;
      simpl in E; lia. }
  assert (Hpath : flat o1 = flat o2 ->
                  interpolate (path o1) <> interpolate (path o2) ->
                  importModulePath_text o1 <> importModulePath_text o2).
  { intros Hf Hp E. unfold importModulePath_text in E.
    rewrite Hn, Hf in E. apply append_inj_l in E.
    rewrite <- !(append_assoc _ "/") in E.
    apply append_inj_r in E. apply append_inj_r in E. by apply Hp. }
  split; [| split; [| split; [| split; [| split]]]].
  - unfold buildRoute. by rewrite Hn, Hr.
  - unfold buildRoute. destruct ivyEnabled.
    + exists ("{ path: '" +:+ interpolate (route o1)
              +:+ "', loadChildren: () => import('"),
             ("').then(m => m." +:+ classify (name o1) +:+ "Module) }").
      by rewrite !append_assoc.
    + exists ("{ path: '" +:+ interpolate (route o1) +:+ "', loadChildren: '"),
             ("#" +:+ classify (name o1) +:+ "Module' }").
      by rewrite !append_assoc.
  - intros s modulePath sourceText _ Hmod Ht Hread.
    rewrite <- Hmod in Ht. rewrite (addDeclarationToNgModule_run s Ht).
    rewrite Hmod. simpl. rewrite Hread. simpl.
    apply elem_of_app. right.
    apply list_elem_of_further, list_elem_of_here.
  - exact Hflat.
  - exact Hpath.
  - intros modulePath Hinj Hdiff E. apply Hinj in E.
    destruct Hdiff as [[Hp Hf] | [Hf Hp]]; [by apply Hflat | by apply Hpath].
Qed.

Lemma buildRoute_ignores_path_and_flat_witness :
  let nested := set_module (Some "/src/app/app.module.ts") import_options in
  let flattened :=
    {| name := "widget"; path := Some "/src/app"; project := Some "app";
       module := Some "/src/app/app.module.ts"; route := None;
       routingScope := Root; flat := true; routing := false;
       lintFix := false |} in
  buildRoute (H := demo) nested false = buildRoute (H := demo) flattened false
  /\ EvAddImportToModule "/src/app/app.module.ts" "WidgetModule"
       "./widget/widget.module"
     ∈ st_log (snd (addDeclarationToNgModule (H := demo)
                      (start nested plain_tree)))
  /\ EvAddImportToModule "/src/app/app.module.ts" "WidgetModule"
       "./widget.module"
     ∈ st_log (snd (addDeclarationToNgModule (H := demo)
                      (start flattened plain_tree))).
Proof.
  intros nested flattened.
  destruct (buildRoute_ignores_path_and_flat (H := demo) nested flattened
              false eq_refl eq_refl) as (Hroute & _ & Hstep & _).
  split; [exact Hroute |]. split.
  - exact (Hstep (start nested plain_tree) "/src/app/app.module.ts" _
             (or_introl eq_refl) eq_refl eq_refl eq_refl).
  - exact (Hstep (start flattened plain_tree) "/src/app/app.module.ts" _
             (or_intror eq_refl) eq_refl eq_refl eq_refl).
Defined.

Lemma dom_overwrite (h : Tree) (p : Path) (old new : string) :
  h !! p = Some old -> dom (<[p := new]> h) = dom h.
Proof.
  intros Hp. rewrite dom_insert_L.
  assert (Hin : p ∈ dom h) by (apply elem_of_dom; eauto).
  apply set_eq. intros q. rewrite elem_of_union, elem_of_singleton.
  split; [intros [-> | Hq]; assumption | by right].
Qed.

(** X4. The import step never creates or removes a file, and the only file
    whose contents it can change is the one named by [module]; this holds
    whether it returns or throws (lines 34-71). *)
Theorem import_step_touches_only_module `{Collaborators} (s : State) :
  let s' := snd (addDeclarationToNgModule s) in
  dom (st_host s') = dom (st_host s)
  /\ forall p, Some p <> module (st_options s) ->
       st_host s' !! p = st_host s !! p.
Proof.
  simpl. destruct (truthy (module (st_options s))) eqn:Hm.
  - rewrite (addDeclarationToNgModule_run s Hm). simpl.
    destruct (truthy_Some _ Hm) as (m & Hmod & _). rewrite Hmod. simpl.
    destruct (st_host s !! m) as [sourceText |] eqn:Hread; simpl.
    + split; [by eapply dom_overwrite |].
      intros p Hp. apply lookup_insert_ne. congruence.
    + by split.
  - rewrite (addDeclarationToNgModule_falsy_module s Hm). by split.
Qed.

(** X5. The route step never creates or removes a file, and the only file
    whose contents it can change is its target, the sibling's path when
    there is one and the [module] path otherwise; this holds whether it
    returns or throws (lines 78-111). *)
Theorem route_step_touches_only_target `{Collaborators} (s : State)
    (project : WorkspaceProject) (routingModulePath : jsstring) :
  let s' := snd (addRouteDeclarationToNgModule project routingModulePath s) in
  dom (st_host s') = dom (st_host s)
  /\ forall p, p <> route_target (st_options s) routingModulePath ->
       st_host s' !! p = st_host s !! p.
Proof.
  simpl. destruct (truthy (route (st_options s))) eqn:Hr;
    [destruct (truthy (module (st_options s))) eqn:Hm |].
  - rewrite (addRouteDeclarationToNgModule_run s project routingModulePath
               Hr Hm). simpl.
    set (target := route_target (st_options s) routingModulePath).
    destruct (st_host s !! target) as [sourceText |] eqn:Hread; simpl;
      [| by split].
    destruct (addRouteDeclarationToModule sourceText target _); simpl;
      [| by split].
    split; [by eapply dom_overwrite |].
    intros p Hp. apply lookup_insert_ne. congruence.
  - unfold addRouteDeclarationToNgModule. run_rule. rewrite Hr, Hm. by split.
  - rewrite (addRouteDeclarationToNgModule_no_route project routingModulePath
               s Hr). by split.
Qed.

Lemma inserted_at_nil (i : nat) : inserted_at [] i = "".
Proof. reflexivity. Qed.

Lemma splice_nil (s : string) (i : nat) : splice [] i s = s.
Proof.
  revert i. induction s as [| c rest IH]; intros i; simpl; [reflexivity |].
  by rewrite inserted_at_nil, append_nil_l, IH.
Qed.

(** X6. Changes that are not [InsertChange]s are dropped by the import step:
    when the analyser returns none, the step still opens and commits an
    update, registers no insert, and leaves the tree as it was
    (lines 61-67). *)
Theorem import_step_without_inserts `{Collaborators} (s : State)
    (modulePath : Path) (sourceText : string) :
  module (st_options s) = Some modulePath ->
  truthy (Some modulePath) = true ->
  st_host s !! modulePath = Some sourceText ->
  let symbolName := classify (name (st_options s) +:+ "Module") in
  let relativePath :=
    buildRelativePath modulePath (importModulePath (st_options s)) in
  insert_changes
    (addImportToModule sourceText modulePath symbolName relativePath) = [] ->
  addDeclarationToNgModule s
  = (Ok tt,
     logged [EvRead modulePath;
             EvAddImportToModule modulePath symbolName relativePath;
             EvBeginUpdate modulePath;
             EvCommitUpdate modulePath] s).
Proof.
  intros Hmod Ht Hread symbolName relativePath Hnone.
  rewrite <- Hmod in Ht. rewrite (addDeclarationToNgModule_run s Ht).
  rewrite Hmod. simpl. rewrite Hread. fold symbolName relativePath.
  rewrite Hnone. simpl. unfold merged_text. simpl. rewrite splice_nil.
  rewrite (insert_id _ _ _ Hread).
  unfold with_host, logged. reflexivity.
Qed.

Lemma import_step_without_inserts_witness :
  addDeclarationToNgModule (H := demo_imported)
    (start (set_module (Some "/src/app/app.module.ts") import_options)
       plain_tree)
  = (Ok tt,
     logged [EvRead "/src/app/app.module.ts";
             EvAddImportToModule "/src/app/app.module.ts" "WidgetModule"
               "./widget/widget.module";
             EvBeginUpdate "/src/app/app.module.ts";
             EvCommitUpdate "/src/app/app.module.ts"]
       (start (set_module (Some "/src/app/app.module.ts") import_options)
          plain_tree)).
Proof.
  exact (import_step_without_inserts (H := demo_imported)
           (start (set_module (Some "/src/app/app.module.ts") import_options)
              plain_tree)
           "/src/app/app.module.ts" _ eq_refl eq_refl eq_refl eq_refl).
Defined.

(** ** The name of the routing sibling *)

Lemma split_dot_head_no_dot (s : string) : has_dot (split_dot_head s) = false.
Proof.
  induction s as [| c rest IH]; simpl; [reflexivity |].
  destruct (Ascii.eqb c "."%char) eqn:Hc; simpl; [reflexivity |].
  by rewrite Hc, IH.
Qed.

Lemma split_dot_head_cut (s : string) :
  if has_dot s
  then exists rest, s = split_dot_head s +:+ "." +:+ rest
  else split_dot_head s = s.
Proof.
  induction s as [| c rest IH]; simpl; [reflexivity |].
  destruct (Ascii.eqb_spec c "."%char) as [-> | Hc]; simpl.
  - by exists rest.
  - destruct (has_dot rest).
    + destruct IH as [tail Htail]. exists tail.
      rewrite append_cons. by rewrite <- Htail.
    + by rewrite IH.
Qed.

(** X7. The name looked up for the sibling is a prefix of the module path
    with no dot in it, followed by [-routing]: the whole path when it has no
    dot, and otherwise the part before its first dot (line 117). *)
Theorem routingModuleName_cuts_at_first_dot (modulePath : Path) :
  exists prefix,
    routingModuleName modulePath = prefix +:+ "-routing"
    /\ has_dot prefix = false
    /\ if has_dot modulePath
       then exists rest, modulePath = prefix +:+ "." +:+ rest
       else prefix = modulePath.
Proof.
  exists (split_dot_head modulePath). split; [reflexivity |].
  split; [apply split_dot_head_no_dot | apply split_dot_head_cut].
Qed.

Lemma routingModuleName_plain_directories_witness :
  routingModuleName "/src/app/app.module.ts" = "/src/app/app-routing".
Proof.
  exact (routingModuleName_plain_directories "/src/app/app.module.ts" eq_refl).
Defined.

(** ** Whole runs *)

(** Outside a lazy run [prepare] returns no sibling. *)
Lemma prepare_sibling_only_when_lazy `{Collaborators} (s s1 : State)
    (routingModulePath : jsstring) :
  prepare s = (Ok routingModulePath, s1) ->
  isLazyLoadedModuleGen (st_options s1) = false ->
  routingModulePath = None.
Proof.
  rewrite prepare_run. simpl.
  destruct (with_default_path (st_host s) (st_options s)) as [o1 | e];
    [| discriminate].
  assert (Hfinish : forall o3,
             (if isLazyLoadedModuleGen o3
              then (getRoutingModulePath (st_host s)
                      (set_routingScope Child o3),
                    with_options (set_routingScope Child o3) s)
              else (Ok None, with_options o3 s))
             = (Ok routingModulePath, s1) ->
             isLazyLoadedModuleGen (st_options s1) = false ->
             routingModulePath = None).
  { intros o3. destruct (isLazyLoadedModuleGen o3) eqn:Hl;
      intros [= Hout <-]; simpl; [| done].
    unfold isLazyLoadedModuleGen in *. simpl. by rewrite Hl. }
  destruct (truthy (module o1)); [| by apply Hfinish].
  destruct (findModuleFromOptions (st_host s) o1); [| discriminate].
  by apply Hfinish.
Qed.

(** X8. A run with a [module] and no [route], in which the project can be
    read, performs the import step once, on the resolved module path and
    with the parsed name and path: it reads the descriptor, asks the import
    analyser for the classified name and the relative path, registers the
    inserts and commits; it logs nothing else, whatever the later rules do
    (lines 141-188). *)
Theorem plain_run_imports_once `{Collaborators} (s s1 : State)
    (routingModulePath : jsstring) (workspaceProject : WorkspaceProject)
    (modulePath : Path) (sourceText : string) :
  prepare s = (Ok routingModulePath, s1) ->
  getProject (st_host s) (project (st_options s)) = Ok workspaceProject ->
  truthy (route (st_options s)) = false ->
  module (st_options s1) = Some modulePath ->
  truthy (Some modulePath) = true ->
  st_host s !! modulePath = Some sourceText ->
  let options := st_options s1 in
  let symbolName := classify (name options +:+ "Module") in
  let relativePath :=
    buildRelativePath modulePath (importModulePath options) in
  let inserts :=
    insert_changes
      (addImportToModule sourceText modulePath symbolName relativePath) in
  st_log (snd (module_schematic s))
  = st_log s
    ++ [EvRead modulePath;
        EvAddImportToModule modulePath symbolName relativePath;
        EvBeginUpdate modulePath]
    ++ (insert_event modulePath <$> inserts)
    ++ [EvCommitUpdate modulePath].
Proof.
  intros Hp Hproj Hr Hmod Ht Hread options symbolName relativePath inserts.
  destruct (prepare_frame s) as (Hh & Hl & Hpr & Hroute & _).
  rewrite module_schematic_run. rewrite Hp in *.
  simpl in Hh, Hl, Hpr, Hroute. rewrite Hh, Hpr, Hproj.
  rewrite chain_rules_log. simpl.
  assert (Hr1 : truthy (route (st_options s1)) = false) by (by rewrite Hroute).
  unfold isLazyLoadedModuleGen. rewrite Hr1. simpl.
  assert (Hm1 : truthy (module (st_options s1)) = true) by (by rewrite Hmod).
  assert (Hstep := addDeclarationToNgModule_run s1 Hm1).
  simpl in Hstep. rewrite Hmod in Hstep. simpl in Hstep.
  rewrite Hh, Hread in Hstep.
  rewrite (bind_Ok _ _ _ _ _ Hstep).
  rewrite addRouteDeclarationToNgModule_no_route by exact Hr1.
  simpl. by rewrite Hl.
Qed.

Lemma plain_run_imports_once_witness :
  st_log (snd (module_schematic (H := demo) (start import_options plain_tree)))
  = [EvRead "/src/app/app.module.ts";
     EvAddImportToModule "/src/app/app.module.ts" "WidgetModule"
       "./widget/widget.module";
     EvBeginUpdate "/src/app/app.module.ts";
     EvInsertLeft "/src/app/app.module.ts" 0
       "import { WidgetModule } from './widget/widget.module';";
     EvCommitUpdate "/src/app/app.module.ts"].
Proof.
  exact (plain_run_imports_once (H := demo) (start import_options plain_tree)
           _ _ false "/src/app/app.module.ts" _
           eq_refl eq_refl eq_refl eq_refl eq_refl eq_refl).
Defined.

(** X9. In a lazy run in which the project can be read, every event the core
    logs is about one file, the target of the route entry, and the first of
    them is the read of that file: the main descriptor is not touched when a
    sibling was found, and the other way round (lines 155-162 and
    177-188). *)
Theorem lazy_run_touches_only_target `{Collaborators} (s : State)
    (workspaceProject : WorkspaceProject) :
  lazy_run s = true ->
  getProject (st_host s) (project (st_options s)) = Ok workspaceProject ->
  exists routingModulePath s1 evs,
    prepare s = (Ok routingModulePath, s1)
    /\ st_log (snd (module_schematic s)) = st_log s ++ evs
    /\ head evs
       = Some (EvRead (route_target (st_options s1) routingModulePath))
    /\ Forall (fun e => event_path e
                        = route_target (st_options s1) routingModulePath)
              evs.
Proof.
  intros Hlazy Hproj.
  destruct (lazy_run_prepared s Hlazy) as (routingModulePath & s1 & Hp & Hl).
  destruct (prepare_frame s) as (_ & Hlog & _).
  rewrite Hp in Hlog. simpl in Hlog.
  exists routingModulePath, s1.
  rewrite (lazy_run_log s s1 routingModulePath workspaceProject Hp Hl Hproj).
  apply andb_prop in Hl as [Hr Hm].
  destruct (route_step_events s1 workspaceProject routingModulePath Hr Hm)
    as (evs & Hevs & Hhead & Hall & _).
  exists evs. rewrite Hevs, Hlog. by repeat split.
Qed.

Lemma lazy_run_touches_only_target_witness :
  Forall (fun e => event_path e = "/src/app/app-routing.module.ts")
    (st_log (snd (module_schematic (H := demo)
                    (start widget_options routed_tree)))).
Proof.
  destruct (lazy_run_touches_only_target (H := demo)
              (start widget_options routed_tree) false eq_refl eq_refl)
    as (r & s1 & evs & Hp & Hlog & _ & Hall).
  rewrite Hlog. simpl.
  assert (Hs1 : s1 = snd (prepare (H := demo)
                            (start widget_options routed_tree)))
    by (by rewrite Hp).
  assert (Hr : Ok r = Ok (Some "/src/app/app-routing.module.ts"))
    by (change (fst (Ok r, s1)
                = fst (prepare (H := demo)
                         (start widget_options routed_tree)));
        by rewrite Hp).
  injection Hr as Hr. subst r s1. exact Hall.
Defined.

(** X10. A run with neither a [route] nor a [module] makes no read and no
    update of its own: both steps return at once, and whatever happens to
    the tree is the work of the template and lint rules (lines 36-38, 79-81
    and 177-188). *)
Theorem bare_run_logs_nothing `{Collaborators} (s : State) :
  truthy (route (st_options s)) = false ->
  truthy (module (st_options s)) = false ->
  st_log (snd (module_schematic s)) = st_log s.
Proof.
  intros Hr Hm.
  destruct (prepare_frame s) as (_ & Hlog & _ & Hroute & _ & _ & _ & Hprep).
  destruct (Hprep Hm) as [Hmod _].
  rewrite module_schematic_run.
  destruct (prepare s) as [[routingModulePath | e] s1];
    simpl in Hlog, Hroute, Hmod; [| exact Hlog].
  destruct (getProject _ _) as [workspaceProject | e]; [| exact Hlog].
  rewrite chain_rules_log. simpl.
  assert (Hr1 : truthy (route (st_options s1)) = false) by (by rewrite Hroute).
  assert (Hm1 : truthy (module (st_options s1)) = false) by (by rewrite Hmod).
  unfold isLazyLoadedModuleGen. rewrite Hr1. simpl.
  rewrite (bind_Ok _ _ s1 s1 tt)
    by (by apply addDeclarationToNgModule_falsy_module).
  by rewrite addRouteDeclarationToNgModule_no_route.
Qed.

Lemma bare_run_logs_nothing_witness :
  st_log (snd (module_schematic (H := demo)
                 (start (set_module None import_options) plain_tree)))
  = [].
Proof.
  exact (bare_run_logs_nothing (H := demo)
           (start (set_module None import_options) plain_tree)
           eq_refl eq_refl).
Defined.

(** X11. What the templates are told agrees with what the route step did.
    The route declaration counts as not inlined only in a lazy run that
    found a sibling, and then the routing template is kept whatever
    [routing] says; outside a lazy run the declaration counts as inlined and
    the routing template is kept exactly when [routing] was asked for
    (lines 155-175). *)
Theorem template_context_of_run `{Collaborators} (s s1 : State)
    (routingModulePath : jsstring) :
  prepare s = (Ok routingModulePath, s1) ->
  let ctx := templateContext (st_options s1) routingModulePath in
  (routeDeclarationInlined ctx = false ->
   lazyRoute ctx = true /\ keep_routing_template ctx = true
   /\ truthy routingModulePath = true)
  /\ (lazyRoute ctx = false ->
      routeDeclarationInlined ctx = true
      /\ keep_routing_template ctx = routing (st_options s)).
Proof.
  intros Hp.
  assert (Hnone := prepare_sibling_only_when_lazy s s1 routingModulePath Hp).
  destruct (prepare_frame s) as (_ & _ & _ & _ & _ & Hrouting & _).
  rewrite Hp in Hrouting. simpl in Hrouting.
  unfold templateContext. simpl. split.
  - intros Hinl. apply negb_false_iff in Hinl.
    destruct (isLazyLoadedModuleGen (st_options s1)) eqn:Hl.
    + rewrite Hinl. by rewrite orb_true_r.
    + rewrite (Hnone eq_refl) in Hinl. discriminate.
  - intros Hl. rewrite (Hnone Hl), Hl. simpl.
    by rewrite orb_false_r, Hrouting.
Qed.

Lemma template_context_of_run_witness :
  keep_routing_template
    (templateContext
       (st_options (snd (prepare (H := demo)
                           (start widget_options routed_tree))))
       (Some "/src/app/app-routing.module.ts"))
  = true.
Proof.
  refine (proj1 (proj2 (proj1 (template_context_of_run (H := demo)
                                 (start widget_options routed_tree) _ _
                                 eq_refl) eq_refl))).
Defined.
